(** * BROP bridge server: routing, correlation and translation

    A shallow embedding of [bridge_server.py] (class [BROPBridgeServer]) and
    the properties of its message routing.

    Conventions of the embedding.
    - A text frame is represented by what [json.loads] makes of it: [None]
      when [json.loads] raises, [Some j] otherwise.  A frame handed to
      [send] is represented by the object given to [json.dumps].
    - A websocket object is a connection identifier ([conn]).
    - Each call of a [process_*] coroutine is one atomic step.  These
      coroutines are suspended only inside [send], and the one piece of
      bridge state they read after a suspension is the set of BROP clients
      in [broadcast_extension_event], read once the CDP broadcast is over;
      it is taken as it is when the step begins.
    - The order in which [asyncio.gather] runs the sends of a broadcast is
      that of the iteration over the set of clients, which is not specified;
      statements about broadcasts do not depend on it.
    - Calls of [logger] have no effect on the bridge or on any connection
      and are left out. *)

From Stdlib Require Import ZArith String.
From Stdlib Require Import Floats.SpecFloat.
From stdpp Require Import gmap strings pretty.

Set Warnings "-register-all".
Local Open Scope string_scope.

(** ** JSON values, as [json.loads] builds them *)

Inductive json : Type :=
| JNull
| JBool (b : bool)
| JInt (n : Z)
| JFloat (f : spec_float)
| JStr (s : string)
| JArr (items : list json)
| JObj (fields : list (string * json)).

(** A Python [dict] with [str] keys, in insertion order. *)
Definition pydict := list (string * json).

Module Dict.

(** [d.get(k)] on the fields of a dict: the value stored under [k]. *)
Fixpoint get (k : string) (d : pydict) : option json :=
  match d with
  | [] => None
  | (k', v) :: d' => if String.eqb k k' then Some v else get k d'
  end.

(** [d[k] = v]: the value is replaced where [k] is, else [k] is added
    last. *)
Fixpoint set (k : string) (v : json) (d : pydict) : pydict :=
  match d with
  | [] => [(k, v)]
  | (k', v') :: d' =>
      if String.eqb k k' then (k', v) :: d' else (k', v') :: set k v d'
  end.

Definition keys (d : pydict) : list string := map fst d.

End Dict.

(** ** Python's view of JSON values *)

(** Truth value of an object ([if x:], [not x]).  A float is false when it
    is a zero; NaN and the infinities are true. *)
Definition truthy (j : json) : bool :=
  match j with
  | JNull => false
  | JBool b => b
  | JInt n => negb (Z.eqb n 0)
  | JFloat (S754_zero _) => false
  | JFloat _ => true
  | JStr s => negb (String.eqb s "")
  | JArr l => match l with [] => false | _ => true end
  | JObj d => match d with [] => false | _ => true end
  end.

(** [list] and [dict] are not hashable: using one as a key of a dict (or
    testing [in] with it) raises [TypeError]. *)
Definition hashable (j : json) : bool :=
  match j with
  | JArr _ | JObj _ => false
  | _ => true
  end.

(** The value of a finite float [(-1)^s * m * 2^e] against an [int]:
    Python compares them exactly. *)
Definition float_eq_int (f : spec_float) (n : Z) : bool :=
  match f with
  | S754_zero _ => Z.eqb n 0
  | S754_finite s m e =>
      let v := if s then Z.neg m else Z.pos m in
      if (0 <=? e)%Z then Z.eqb n (v * 2 ^ e) else Z.eqb v (n * 2 ^ (- e))
  | S754_infinity _ | S754_nan => false
  end.

(** Whether [a] and [b], two objects that came out of [json.loads], are
    the same key of a dict: a dict takes two keys for one when they are the
    same object or when [a == b].  For [==], [bool] is a subclass of [int]
    ([True == 1]), an [int] and a [float] of the same value are equal, and
    objects of different kinds are different.  NaN is not [==] to itself,
    but [json.loads] returns the one NaN object of its decoder for every
    NaN it reads, so as a key NaN is NaN. *)
Definition py_eqb (a b : json) : bool :=
  match a, b with
  | JNull, JNull => true
  | JStr s, JStr t => String.eqb s t
  | JBool x, JBool y => Bool.eqb x y
  | JBool x, JInt n | JInt n, JBool x => Z.eqb (Z.b2z x) n
  | JInt m, JInt n => Z.eqb m n
  | JBool x, JFloat f | JFloat f, JBool x => float_eq_int f (Z.b2z x)
  | JInt n, JFloat f | JFloat f, JInt n => float_eq_int f n
  | JFloat S754_nan, JFloat S754_nan => true
  | JFloat f, JFloat g => SFeqb f g
  | _, _ => false
  end.

(** The decimal digits of an [int], as [str] and f-strings write it. *)
Definition decimal (n : Z) : string := pretty n.
Arguments decimal : simpl never.

(** [x == "..."] against a string literal. *)
Definition eq_str (j : json) (s : string) : bool :=
  match j with
  | JStr t => String.eqb t s
  | _ => false
  end.

(** [x in [s1, s2, ...]] for a list of string literals. *)
Definition in_strs (j : json) (l : list string) : bool :=
  existsb (eq_str j) l.

(** ** Exceptions, connections and the effects of a coroutine *)

Inductive exn : Type :=
| JSONDecodeError
| AttributeError
| TypeError
| KeyError
| ConnectionClosed.

(** How a call ends: it returns a value or raises. *)
Inductive outcome (A : Type) : Type :=
| Done (a : A)
| Raised (e : exn).
Arguments Done {A} a.
Arguments Raised {A} e.

#[global] Instance outcome_ret : MRet outcome := fun A a => Done a.
#[global] Instance outcome_bind : MBind outcome := fun A B f m =>
  match m with
  | Done a => f a
  | Raised e => Raised e
  end.

(** [json.loads(message)]. *)
Definition json_loads (message : option json) : outcome json :=
  match message with
  | Some data => Done data
  | None => Raised JSONDecodeError
  end.

(** [x.get(k, default)]: only a dict has the method. *)
Definition py_get (x : json) (k : string) (dflt : json) : outcome json :=
  match x with
  | JObj d => Done (default dflt (Dict.get k d))
  | _ => Raised AttributeError
  end.

(** A websocket object. *)
Definition conn := nat.

(** The transports: [true] for a connection on which [send] raises. *)
Definition transport := conn -> bool.

(** The pending-request dicts: keys are request ids (any hashable object),
    values are the clients to answer. *)
Module Pending.

Definition t := list (json * conn).

Fixpoint lookup (k : json) (d : t) : option conn :=
  match d with
  | [] => None
  | (k', c) :: d' => if py_eqb k k' then Some c else lookup k d'
  end.

(** [k in d] *)
Definition contains (k : json) (d : t) : bool :=
  match lookup k d with Some _ => true | None => false end.

(** [d[k] = c]: an equal key keeps its place (and the key object first
    stored), its value is replaced; a new key is added. *)
Fixpoint store (k : json) (c : conn) (d : t) : t :=
  match d with
  | [] => [(k, c)]
  | (k', c') :: d' =>
      if py_eqb k k' then (k', c) :: d' else (k', c') :: store k c d'
  end.

(** What [d.pop(k)] leaves in [d]. *)
Fixpoint remove (k : json) (d : t) : t :=
  match d with
  | [] => []
  | (k', c') :: d' =>
      if py_eqb k k' then d' else (k', c') :: remove k d'
  end.

End Pending.

(** The fields of [BROPBridgeServer] that the routing reads or writes. *)
Record bridge : Type := Bridge {
  extension_client : option conn;
  cdp_clients : gset conn;
  brop_clients : gset conn;
  pending_cdp_requests : Pending.t;
  pending_brop_requests : Pending.t;
  message_counter : N
}.

(** [BROPBridgeServer.__init__] *)
Definition init : bridge :=
  Bridge None ∅ ∅ [] [] 0.

Definition set_extension_client (v : option conn) (b : bridge) : bridge :=
  Bridge v (cdp_clients b) (brop_clients b)
    (pending_cdp_requests b) (pending_brop_requests b) (message_counter b).
Definition set_cdp_clients (v : gset conn) (b : bridge) : bridge :=
  Bridge (extension_client b) v (brop_clients b)
    (pending_cdp_requests b) (pending_brop_requests b) (message_counter b).
Definition set_brop_clients (v : gset conn) (b : bridge) : bridge :=
  Bridge (extension_client b) (cdp_clients b) v
    (pending_cdp_requests b) (pending_brop_requests b) (message_counter b).
Definition set_pending_cdp_requests (v : Pending.t) (b : bridge) : bridge :=
  Bridge (extension_client b) (cdp_clients b) (brop_clients b)
    v (pending_brop_requests b) (message_counter b).
Definition set_pending_brop_requests (v : Pending.t) (b : bridge) : bridge :=
  Bridge (extension_client b) (cdp_clients b) (brop_clients b)
    (pending_cdp_requests b) v (message_counter b).
Definition set_message_counter (v : N) (b : bridge) : bridge :=
  Bridge (extension_client b) (cdp_clients b) (brop_clients b)
    (pending_cdp_requests b) (pending_brop_requests b) v.

(** One call of [websocket.send(json.dumps(obj))]: the connection and the
    object. *)
Definition frame : Type := conn * json.

(** The result of running a coroutine: the bridge it leaves, the [send]
    calls it made, in order, and how it ended. *)
Record result (A : Type) : Type := Result {
  final : bridge;
  sent : list frame;
  ending : outcome A
}.
Arguments Result {A} final sent ending.
Arguments final {A} r.
Arguments sent {A} r.
Arguments ending {A} r.

(** A coroutine of the bridge, run on given transports from a given
    bridge. *)
Definition M (A : Type) : Type := transport -> bridge -> result A.

#[global] Instance M_ret : MRet M := fun A a _ b => Result b [] (Done a).
#[global] Instance M_bind : MBind M := fun A B f m net b =>
  match m net b with
  | Result b1 s1 (Done a) =>
      match f a net b1 with
      | Result b2 s2 o => Result b2 (s1 ++ s2) o
      end
  | Result b1 s1 (Raised e) => Result b1 s1 (Raised e)
  end.

(** A call that touches neither the bridge nor a connection. *)
Definition lift {A} (o : outcome A) : M A := fun _ b => Result b [] o.

Definition gets {A} (f : bridge -> A) : M A := fun _ b => Result b [] (Done (f b)).
Definition modify (f : bridge -> bridge) : M unit :=
  fun _ b => Result (f b) [] (Done tt).

(** [await websocket.send(json.dumps(obj))] *)
Definition send (websocket : conn) (obj : json) : M unit := fun net b =>
  Result b [(websocket, obj)]
    (if net websocket then Raised ConnectionClosed else Done tt).

(** [try: body except Exception as e: logger.error(...)] *)
Definition try_except (body : M unit) : M unit := fun net b =>
  match body net b with
  | Result b1 s1 _ => Result b1 s1 (Done tt)
  end.

(** [asyncio.gather] of a list of coroutines with [return_exceptions=True],
    awaited: every coroutine
    runs to its end, what it raises becomes its entry in the list of
    results, and [gather] itself returns. *)
Fixpoint gather (coros : list (M unit)) : M (list (outcome unit)) :=
  match coros with
  | [] => mret []
  | c :: cs => fun net b =>
      match c net b with
      | Result b1 s1 o1 =>
          match gather cs net b1 with
          | Result b2 s2 (Done os) => Result b2 (s1 ++ s2) (Done (o1 :: os))
          | Result b2 s2 (Raised e) => Result b2 (s1 ++ s2) (Raised e)
          end
      end
  end.

(** The frames that reached their connection. *)
Definition delivered (net : transport) (l : list frame) : list frame :=
  filter (fun f => net (fst f) = false) l.

(** [k in d], [d[k] = c] and [d.pop(k)] on one of the two pending dicts,
    given by its field and its setter. *)
Definition pending_in (field : bridge -> Pending.t) (k : json) : M bool :=
  fun _ b =>
    if hashable k then Result b [] (Done (Pending.contains k (field b)))
    else Result b [] (Raised TypeError).

Definition pending_setitem (field : bridge -> Pending.t)
    (setter : Pending.t -> bridge -> bridge) (k : json) (c : conn) : M unit :=
  fun _ b =>
    if hashable k then Result (setter (Pending.store k c (field b)) b) [] (Done tt)
    else Result b [] (Raised TypeError).

Definition pending_pop (field : bridge -> Pending.t)
    (setter : Pending.t -> bridge -> bridge) (k : json) : M conn :=
  fun _ b =>
    if hashable k then
      match Pending.lookup k (field b) with
      | Some c => Result (setter (Pending.remove k (field b)) b) [] (Done c)
      | None => Result b [] (Raised KeyError)
      end
    else Result b [] (Raised TypeError).

(** [self.extension_client.send(...)]: there is no [send] on [None]. *)
Definition extension_client_send (obj : json) : M unit :=
  agent ← gets extension_client;
  match agent with
  | Some websocket => send websocket obj
  | None => lift (Raised AttributeError)
  end.

(** ** The bridge *)

Section Bridge.

(** [str(x)] of a float, a list or a dict: Python's [repr], which is not
    modelled. *)
Variable py_repr : json -> string.

(** [str(x)], also what an f-string makes of [{x}]. *)
Definition py_str (x : json) : string :=
  match x with
  | JStr s => s
  | JNull => "None"
  | JBool true => "True"
  | JBool false => "False"
  | JInt n => decimal n
  | JFloat _ | JArr _ | JObj _ => py_repr x
  end.

(** [get_next_message_id] *)
Definition get_next_message_id : M json :=
  _ ← modify (fun b => set_message_counter (message_counter b + 1) b);
  n ← gets message_counter;
  mret (JStr ("bridge_" ++ decimal (Z.of_N n))).

(** [convert_to_cdp_response] *)
Definition convert_to_cdp_response (extension_response : json) : outcome json :=
  message_id ← py_get extension_response "id" JNull;
  success ← py_get extension_response "success" (JBool false);
  if truthy success then
    result ← py_get extension_response "result" (JObj []);
    mret (JObj [("id", message_id); ("result", result)])
  else
    error_msg ← py_get extension_response "error" (JStr "Unknown error");
    mret (JObj [("id", message_id);
                ("error", JObj [("code", JInt (-32000));
                                ("message", JStr (py_str error_msg))])]).

(** [broadcast_to_cdp_clients] and [broadcast_to_brop_clients]: the
    clients are taken in the order in which the set is iterated. *)
Definition broadcast_to_cdp_clients (message : json) : M unit :=
  clients ← gets cdp_clients;
  if decide (clients = ∅) then mret tt
  else
    _ ← gather ((fun client => send client message) <$> elements clients);
    mret tt.

Definition broadcast_to_brop_clients (message : json) : M unit :=
  clients ← gets brop_clients;
  if decide (clients = ∅) then mret tt
  else
    _ ← gather ((fun client => send client message) <$> elements clients);
    mret tt.

(** [broadcast_extension_event] *)
Definition broadcast_extension_event (event_data : json) : M unit :=
  event_type ← lift (py_get event_data "event_type" JNull);
  _ ← (if in_strs event_type ["console"; "page_load"; "navigation"] then
         params ← lift (py_get event_data "params" (JObj []));
         let cdp_event :=
           JObj [("method", JStr ("Runtime." ++ py_str event_type));
                 ("params", params)] in
         broadcast_to_cdp_clients cdp_event
       else mret tt);
  broadcast_to_brop_clients event_data.

(** [process_extension_message] *)
Definition process_extension_message (message : option json) : M unit :=
  try_except (
    data ← lift (json_loads message);
    message_type ← lift (py_get data "type" JNull);
    if eq_str message_type "response" then
      request_id ← lift (py_get data "id" JNull);
      in_cdp ← pending_in pending_cdp_requests request_id;
      if in_cdp : bool then
        client ← pending_pop pending_cdp_requests set_pending_cdp_requests
                   request_id;
        cdp_response ← lift (convert_to_cdp_response data);
        send client cdp_response
      else
        in_brop ← pending_in pending_brop_requests request_id;
        if in_brop : bool then
          client ← pending_pop pending_brop_requests set_pending_brop_requests
                     request_id;
          send client data
        else mret tt
    else if eq_str message_type "event" then
      broadcast_extension_event data
    else if eq_str message_type "log" then
      _ ← lift (py_get data "message" (JStr "Unknown log"));
      mret tt
    else mret tt).

(** [process_cdp_message] *)
Definition process_cdp_message (client : conn) (message : option json) : M unit :=
  try_except (
    data ← lift (json_loads message);
    method ← lift (py_get data "method" JNull);
    params ← lift (py_get data "params" (JObj []));
    message_id ← lift (py_get data "id" JNull);
    agent ← gets extension_client;
    if agent is None then
      let error_response :=
        JObj [("id", message_id);
              ("error", JObj [("code", JInt (-32000));
                              ("message", JStr "Chrome extension not connected")])] in
      send client error_response
    else
      let extension_message :=
        JObj [("type", JStr "cdp_command");
              ("id", message_id);
              ("method", method);
              ("params", params)] in
      _ ← pending_setitem pending_cdp_requests set_pending_cdp_requests
            message_id client;
      extension_client_send extension_message).

(** [process_brop_message].  The default argument of [data.get("id", ...)]
    is evaluated before the call: [get_next_message_id] runs for every
    message that has come this far. *)
Definition process_brop_message (client : conn) (message : option json) : M unit :=
  try_except (
    data ← lift (json_loads message);
    command ← lift (py_get data "command" (JObj []));
    command_type ← lift (py_get command "type" JNull);
    fresh ← get_next_message_id;
    message_id ← lift (py_get data "id" fresh);
    agent ← gets extension_client;
    if agent is None then
      let error_response :=
        JObj [("id", message_id);
              ("success", JBool false);
              ("error", JStr "Chrome extension not connected")] in
      send client error_response
    else
      match data with
      | JObj d =>
          let data := JObj (Dict.set "type" (JStr "brop_command")
                             (Dict.set "id" message_id d)) in
          _ ← pending_setitem pending_brop_requests set_pending_brop_requests
                message_id client;
          extension_client_send data
      | _ => lift (Raised TypeError)  (* not reached: [data] has a [get] *)
      end).

(** *** The connection handlers

    A handler runs from the accept of its connection to the end of the
    connection, and the handlers of different connections interleave at
    their waits for a message.  Each handler is cut at these waits:
    [*_begin] runs up to the first wait (or to the end of the handler, and
    then says so by returning [false]), [*_message] is one turn of the
    [async for] loop, and [*_end] is what runs when the loop ends or
    raises: the [except] clauses, which only log, and the [finally]
    clause. *)

(** Runs [body]; when it raises, the [except] clause logs and [fin] runs.
    The result tells whether the handler goes on. *)
Definition begin_handler (body : M bool) (fin : M unit) : M bool := fun net b =>
  match body net b with
  | Result b1 s1 (Done true) => Result b1 s1 (Done true)
  | Result b1 s1 _ =>
      match fin net b1 with
      | Result b2 s2 (Done _) => Result b2 (s1 ++ s2) (Done false)
      | Result b2 s2 (Raised e) => Result b2 (s1 ++ s2) (Raised e)
      end
  end.

(** [handle_extension_client]; [now] is [time.time()]. *)
Definition handle_extension_client_end (websocket : conn) : M unit :=
  modify (set_extension_client None).

Definition handle_extension_client_begin (websocket : conn) (now : spec_float) : M bool :=
  begin_handler
    (_ ← modify (set_extension_client (Some websocket));
     _ ← send websocket
           (JObj [("type", JStr "welcome");
                  ("message", JStr "BROP Bridge Server - Extension connected successfully");
                  ("timestamp", JFloat now)]);
     mret true)
    (handle_extension_client_end websocket).

Definition handle_extension_client_message (websocket : conn)
    (message : option json) : M unit :=
  process_extension_message message.

(** [self.browser_info] *)
Definition browser_info : json :=
  JObj [("Browser", JStr "Chrome/BROP-Extension");
        ("Protocol-Version", JStr "1.3");
        ("User-Agent", JStr "Mozilla/5.0 Chrome BROP Extension");
        ("V8-Version", JStr "12.0.0");
        ("WebKit-Version", JStr "537.36");
        ("webSocketDebuggerUrl", JStr "ws://localhost:9222/")].

(** [get_browser_tabs] *)
Definition get_browser_tabs : M json :=
  mret (JArr [JObj [("description", JStr "");
                    ("devtoolsFrontendUrl",
                     JStr "/devtools/inspector.html?ws=localhost:9222/page/1");
                    ("id", JStr "1");
                    ("title", JStr "BROP Extension Tab");
                    ("type", JStr "page");
                    ("url", JStr "about:blank");
                    ("webSocketDebuggerUrl", JStr "ws://localhost:9222/page/1")]]).

(** [handle_cdp_client] *)
Definition handle_cdp_client_end (websocket : conn) : M unit :=
  modify (fun b => set_cdp_clients (cdp_clients b ∖ {[websocket]}) b).

Definition handle_cdp_client_begin (websocket : conn) (path : string) : M bool :=
  begin_handler
    (_ ← modify (fun b => set_cdp_clients (cdp_clients b ∪ {[websocket]}) b);
     if String.eqb path "/json/version" then
       _ ← send websocket browser_info;
       mret false
     else if String.eqb path "/json" || String.eqb path "/json/list" then
       tabs ← get_browser_tabs;
       _ ← send websocket tabs;
       mret false
     else mret true)
    (handle_cdp_client_end websocket).

Definition handle_cdp_client_message (websocket : conn)
    (message : option json) : M unit :=
  process_cdp_message websocket message.

(** [handle_brop_client] *)
Definition handle_brop_client_end (websocket : conn) : M unit :=
  modify (fun b => set_brop_clients (brop_clients b ∖ {[websocket]}) b).

Definition handle_brop_client_begin (websocket : conn) : M bool :=
  begin_handler
    (_ ← modify (fun b => set_brop_clients (brop_clients b ∪ {[websocket]}) b);
     mret true)
    (handle_brop_client_end websocket).

Definition handle_brop_client_message (websocket : conn)
    (message : option json) : M unit :=
  process_brop_message websocket message.

(** *** The event loop: what happens on the three ports, in order *)

Inductive event : Type :=
| ExtensionAccept (websocket : conn) (now : spec_float)
| ExtensionMessage (websocket : conn) (message : option json)
| ExtensionEnd (websocket : conn)
| CdpAccept (websocket : conn) (path : string)
| CdpMessage (websocket : conn) (message : option json)
| CdpEnd (websocket : conn)
| BropAccept (websocket : conn)
| BropMessage (websocket : conn) (message : option json)
| BropEnd (websocket : conn).

Definition step (e : event) : M unit :=
  match e with
  | ExtensionAccept ws now => _ ← handle_extension_client_begin ws now; mret tt
  | ExtensionMessage ws message => handle_extension_client_message ws message
  | ExtensionEnd ws => handle_extension_client_end ws
  | CdpAccept ws path => _ ← handle_cdp_client_begin ws path; mret tt
  | CdpMessage ws message => handle_cdp_client_message ws message
  | CdpEnd ws => handle_cdp_client_end ws
  | BropAccept ws => _ ← handle_brop_client_begin ws; mret tt
  | BropMessage ws message => handle_brop_client_message ws message
  | BropEnd ws => handle_brop_client_end ws
  end.

Fixpoint run (es : list event) : M unit :=
  match es with
  | [] => mret tt
  | e :: es' => _ ← step e; run es'
  end.

(** ** Vocabulary of the statements *)

Ltac run_coroutine :=
  unfold try_except, extension_client_send, pending_in, pending_setitem,
    pending_pop, get_next_message_id, lift, gets, modify, send,
    mbind, M_bind, mret, M_ret; simpl.

(** The error replies of the two client endpoints. *)
Definition cdp_not_connected (message_id : json) : json :=
  JObj [("id", message_id);
        ("error", JObj [("code", JInt (-32000));
                        ("message", JStr "Chrome extension not connected")])].

Definition brop_not_connected (message_id : json) : json :=
  JObj [("id", message_id);
        ("success", JBool false);
        ("error", JStr "Chrome extension not connected")].

(** The [command] of a BROP request is a dict when there is one. *)
Definition command_is_dict (d : pydict) : Prop :=
  match Dict.get "command" d with
  | None | Some (JObj _) => True
  | Some _ => False
  end.

(** The id of a BROP request on a bridge: the client's, else the next of
    the counter. *)
Definition brop_message_id (d : pydict) (b : bridge) : json :=
  default (JStr ("bridge_" ++ decimal (Z.of_N (message_counter b + 1)))) (Dict.get "id" d).

(** [d] is a reply of the agent for request id [n]. *)
Definition is_reply_for (n : json) (d : pydict) : Prop :=
  Dict.get "type" d = Some (JStr "response") ∧ Dict.get "id" d = Some n.

(** One frame with the object [m] for each connection of a set, in the
    order in which the set is iterated. *)
Definition fan_out (clients : gset conn) (m : json) : list frame :=
  (fun c => (c, m)) <$> elements clients.

(** The kinds of event that CDP clients are told about. *)
Definition cdp_event_kinds : list string := ["console"; "page_load"; "navigation"].

(** The reading of "an id is tracked once": if an entry for the id of a
    request is pending, a second request with that id leaves the client of
    the first in place. *)
Definition cdp_track_keeps_first_origin : Prop :=
  ∀ net b agent first_client second_client d,
    extension_client b = Some agent →
    Pending.lookup (default JNull (Dict.get "id" d)) (pending_cdp_requests b)
      = Some first_client →
    Pending.lookup (default JNull (Dict.get "id" d))
      (pending_cdp_requests
         (final (process_cdp_message second_client (Some (JObj d)) net b)))
      = Some first_client.

Definition brop_track_keeps_first_origin : Prop :=
  ∀ net b agent first_client second_client d,
    extension_client b = Some agent →
    command_is_dict d →
    Pending.lookup (brop_message_id d b) (pending_brop_requests b)
      = Some first_client →
    Pending.lookup (brop_message_id d b)
      (pending_brop_requests
         (final (process_brop_message second_client (Some (JObj d)) net b)))
      = Some first_client.

(** The reading of "ids are scoped per protocol": with a CDP request and a
    BROP request of the same id [n] both pending, the agent's reply to the
    CDP request reaches the CDP client (converted) and its reply to the BROP
    request reaches the BROP client (as it is), in whichever order the two
    replies arrive. *)
Definition replies_reach_own_clients : Prop :=
  ∀ net b agent n cdp_client brop_client cdp_reply brop_reply cdp_response,
    hashable n = true →
    Pending.lookup n (pending_cdp_requests b) = Some cdp_client →
    Pending.lookup n (Pending.remove n (pending_cdp_requests b)) = None →
    Pending.lookup n (pending_brop_requests b) = Some brop_client →
    is_reply_for n cdp_reply →
    is_reply_for n brop_reply →
    convert_to_cdp_response (JObj cdp_reply) = Done cdp_response →
    sent (run [ExtensionMessage agent (Some (JObj cdp_reply));
               ExtensionMessage agent (Some (JObj brop_reply))] net b)
    = [(cdp_client, cdp_response); (brop_client, JObj brop_reply)]
    ∧ sent (run [ExtensionMessage agent (Some (JObj brop_reply));
                 ExtensionMessage agent (Some (JObj cdp_reply))] net b)
      = [(brop_client, JObj brop_reply); (cdp_client, cdp_response)].

(** A coroutine [m] takes every bridge to a bridge related to it by [R]. *)
Definition keeps {A} (R : relation bridge) (m : M A) : Prop :=
  ∀ net b, R b (final (m net b)).

(** The counter of the second bridge is not below that of the first. *)
Definition counter_le : relation bridge :=
  fun b b' => (message_counter b ≤ message_counter b')%N.

(** *** Sample data

    A run with an agent (connection 9), two CDP clients (1 and 3) and a
    BROP client (2), in which client 1 and client 2 both have a request
    with id 7 pending. *)

Definition no_repr : json → string := fun _ => "".

Definition all_up : transport := fun _ => false.
Definition only_3_down : transport := fun c => Nat.eqb c 3.

Definition sample_cdp_request : pydict :=
  [("id", JInt 7); ("method", JStr "Page.navigate");
   ("params", JObj [("url", JStr "https://x")])].

Definition sample_brop_request : pydict :=
  [("id", JInt 7); ("command", JObj [("type", JStr "get_title")])].

Definition sample_brop_request_without_id : pydict :=
  [("command", JObj [("type", JStr "get_title")])].

Definition sample_navigate_reply : pydict :=
  [("type", JStr "response"); ("id", JInt 7); ("success", JBool true);
   ("result", JObj [("frameId", JStr "f1")])].

Definition sample_title_reply : pydict :=
  [("type", JStr "response"); ("id", JInt 7); ("success", JBool true);
   ("result", JObj [("title", JStr "T")])].

Definition sample_failed_reply : pydict :=
  [("type", JStr "response"); ("id", JInt 7); ("success", JBool false);
   ("error", JStr "No such tab")].

Definition sample_event : pydict :=
  [("type", JStr "event"); ("event_type", JStr "console");
   ("params", JObj [("text", JStr "hi")])].

Definition sample_tab_event : pydict :=
  [("type", JStr "event"); ("event_type", JStr "tab_closed");
   ("params", JObj [("tab", JInt 4)])].

Definition sample_ping : pydict := [("type", JStr "ping")].

Definition sample_script : list event :=
  [ExtensionAccept 9 (S754_zero false);
   CdpAccept 1 "/"; CdpAccept 3 "/"; BropAccept 2;
   CdpMessage 1 (Some (JObj sample_cdp_request));
   BropMessage 2 (Some (JObj sample_brop_request))].

Definition both_pending : bridge :=
  Bridge (Some 9) {[1; 3]} {[2]} [(JInt 7, 1)] [(JInt 7, 2)] 1.

Definition brop_only_pending : bridge :=
  Bridge (Some 9) {[1; 3]} {[2]} [] [(JInt 7, 2)] 1.

(** *** Vocabulary of the further properties *)

(** The paths that [handle_cdp_client] answers with a document. *)
Definition discovery_path (path : string) : Prop :=
  path = "/json/version" ∨ path = "/json" ∨ path = "/json/list".

(** What a message of the agent may change: entries leave the pending
    dicts, and nothing else moves. *)
Definition only_resolves : relation bridge := fun b b' =>
  extension_client b' = extension_client b
  ∧ cdp_clients b' = cdp_clients b
  ∧ brop_clients b' = brop_clients b
  ∧ message_counter b' = message_counter b
  ∧ sublist (pending_cdp_requests b') (pending_cdp_requests b)
  ∧ sublist (pending_brop_requests b') (pending_brop_requests b).

(** What a message of a CDP client may change: the CDP pending dict. *)
Definition only_tracks_cdp : relation bridge := fun b b' =>
  extension_client b' = extension_client b
  ∧ cdp_clients b' = cdp_clients b
  ∧ brop_clients b' = brop_clients b
  ∧ message_counter b' = message_counter b
  ∧ pending_brop_requests b' = pending_brop_requests b.

(** What a message of a BROP client may change: the BROP pending dict and
    the counter, which does not go down. *)
Definition only_tracks_brop : relation bridge := fun b b' =>
  extension_client b' = extension_client b
  ∧ cdp_clients b' = cdp_clients b
  ∧ brop_clients b' = brop_clients b
  ∧ (message_counter b ≤ message_counter b')%N
  ∧ pending_cdp_requests b' = pending_cdp_requests b.

(** The welcome of the agent endpoint. *)
Definition welcome (now : spec_float) : json :=
  JObj [("type", JStr "welcome");
        ("message", JStr "BROP Bridge Server - Extension connected successfully");
        ("timestamp", JFloat now)].

Definition sample_cdp_request_list_id : pydict :=
  [("id", JArr [JInt 7]); ("method", JStr "Page.navigate")].

Definition sample_brop_request_string_command : pydict :=
  [("id", JInt 7); ("command", JStr "get_title")].

Definition sample_cdp_request_8 : pydict :=
  [("id", JInt 8); ("method", JStr "Page.reload")].

Definition sample_brop_request_8 : pydict :=
  [("id", JInt 8); ("command", JObj [("type", JStr "get_title")])].

Definition sample_reply_8 : pydict :=
  [("type", JStr "response"); ("id", JInt 8); ("success", JBool true)].

Definition cdp_only_pending : bridge :=
  Bridge (Some 9) {[1; 3]} {[2]} [(JInt 7, 1)] [] 1.

(** The agent slot is the same in both bridges. *)
Definition same_agent : relation bridge :=
  fun b b' => extension_client b' = extension_client b.

(** The events of the agent endpoint that open or end a connection. *)
Definition agent_lifecycle (e : event) : Prop :=
  match e with
  | ExtensionAccept _ _ | ExtensionEnd _ => True
  | _ => False
  end.

Definition sample_cdp_request_without_id : pydict :=
  [("method", JStr "Page.reload")].

Definition sample_reply_without_id : pydict :=
  [("type", JStr "response"); ("success", JInt 1);
   ("result", JObj [("ok", JBool true)])].

Definition sample_reply_zero_success : pydict :=
  [("type", JStr "response"); ("id", JInt 7); ("success", JInt 0);
   ("error", JNull)].

(** A coroutine that returns on every bridge and every transport. *)
Definition returns {A} (m : M A) : Prop :=
  ∀ net b, ∃ a, ending (m net b) = Done a.

(** ** Properties *)

(** *** Dicts *)

Lemma dict_get_set_eq k v d : Dict.get k (Dict.set k v d) = Some v.
Proof.
  induction d as [|[k' v'] d IH]; simpl.
  - by rewrite String.eqb_refl.
  - destruct (String.eqb k k') eqn:E; simpl; rewrite E; done.
Qed.

Lemma dict_get_set_ne k k' v d :
  k ≠ k' → Dict.get k' (Dict.set k v d) = Dict.get k' d.
Proof.
  intros Hne. induction d as [|[k0 v0] d IH]; simpl.
  - destruct (String.eqb_spec k' k); congruence.
  - destruct (String.eqb_spec k k0) as [->|]; simpl.
    + destruct (String.eqb_spec k' k0); congruence.
    + by rewrite IH.
Qed.

Lemma pending_lookup_store_hit k c c0 d :
  Pending.lookup k d = Some c0 → Pending.lookup k (Pending.store k c d) = Some c.
Proof.
  induction d as [|[k' c'] d IH]; simpl; [done|].
  destruct (py_eqb k k') eqn:E; simpl; rewrite E; auto.
Qed.

Lemma pending_lookup_store_new k c d :
  py_eqb k k = true → Pending.lookup k (Pending.store k c d) = Some c.
Proof.
  intros Hk. induction d as [|[k' c'] d IH]; simpl.
  - by rewrite Hk.
  - destruct (py_eqb k k') eqn:E; simpl; rewrite E; auto.
Qed.

Lemma pending_contains_lookup k d c :
  Pending.lookup k d = Some c → Pending.contains k d = true.
Proof. unfold Pending.contains. by intros ->. Qed.

Lemma pending_contains_None k d :
  Pending.lookup k d = None → Pending.contains k d = false.
Proof. unfold Pending.contains. by intros ->. Qed.

(** *** Broadcasts *)

(** A gather of sends of one object calls [send] once on each connection,
    leaves the bridge as it was and returns, whatever the transports do. *)
Lemma gather_sends (l : list conn) (m : json) net b :
  gather ((fun c => send c m) <$> l) net b =
  Result b ((fun c => (c, m)) <$> l)
    (Done ((fun c => if net c then Raised ConnectionClosed else Done tt) <$> l)).
Proof.
  induction l as [|c l IH]; [done|].
  rewrite !fmap_cons. simpl. by rewrite IH.
Qed.

Lemma broadcast_to_cdp_clients_run m net b :
  broadcast_to_cdp_clients m net b =
  Result b (fan_out (cdp_clients b) m) (Done tt).
Proof.
  unfold broadcast_to_cdp_clients, mbind, M_bind, gets; simpl.
  destruct (decide (cdp_clients b = ∅)) as [->|]; simpl.
  - unfold fan_out. by rewrite elements_empty.
  - rewrite gather_sends; simpl. by rewrite app_nil_r.
Qed.

Lemma broadcast_to_brop_clients_run m net b :
  broadcast_to_brop_clients m net b =
  Result b (fan_out (brop_clients b) m) (Done tt).
Proof.
  unfold broadcast_to_brop_clients, mbind, M_bind, gets; simpl.
  destruct (decide (brop_clients b = ∅)) as [->|]; simpl.
  - unfold fan_out. by rewrite elements_empty.
  - rewrite gather_sends; simpl. by rewrite app_nil_r.
Qed.

Lemma elem_of_fan_out c m' clients m :
  (c, m') ∈ fan_out clients m ↔ c ∈ clients ∧ m' = m.
Proof.
  unfold fan_out. rewrite list_elem_of_fmap. split.
  - intros (x & [= -> ->] & Hx). by apply elem_of_elements in Hx.
  - intros [Hc ->]. exists c. split; [done|]. by apply elem_of_elements.
Qed.

Lemma NoDup_fan_out clients m : NoDup (fan_out clients m).
Proof.
  unfold fan_out. apply NoDup_fmap_2; [|apply NoDup_elements].
  by intros x y [= ->].
Qed.

Lemma length_fan_out clients m : length (fan_out clients m) = size clients.
Proof. unfold fan_out. by rewrite length_fmap. Qed.

Lemma in_strs_true j l : in_strs j l = true ↔ ∃ s, j = JStr s ∧ s ∈ l.
Proof.
  unfold in_strs. rewrite existsb_exists. split.
  - intros (s & Hin & Heq). destruct j; simpl in Heq; try done.
    apply String.eqb_eq in Heq as ->. exists s. split; [done|].
    by apply list_elem_of_In.
  - intros (s & -> & Hin). exists s. split; [by apply list_elem_of_In|].
    simpl. apply String.eqb_refl.
Qed.

Lemma broadcast_extension_event_run d net b :
  broadcast_extension_event (JObj d) net b =
  Result b
    ((if in_strs (default JNull (Dict.get "event_type" d)) cdp_event_kinds then
        fan_out (cdp_clients b)
          (JObj [("method",
                  JStr ("Runtime." ++ py_str (default JNull (Dict.get "event_type" d))));
                 ("params", default (JObj []) (Dict.get "params" d))])
      else [])
     ++ fan_out (brop_clients b) (JObj d))
    (Done tt).
Proof.
  unfold broadcast_extension_event, lift, mbind, M_bind, mret, M_ret.
  cbn -[broadcast_to_cdp_clients broadcast_to_brop_clients in_strs].
  change ["console"; "page_load"; "navigation"] with cdp_event_kinds.
  destruct (in_strs _ cdp_event_kinds);
    cbn -[broadcast_to_cdp_clients broadcast_to_brop_clients];
    rewrite ?broadcast_to_cdp_clients_run, broadcast_to_brop_clients_run; simpl;
    rewrite ?broadcast_to_brop_clients_run; done.
Qed.

Lemma process_extension_message_event d net b :
  Dict.get "type" d = Some (JStr "event") →
  process_extension_message (Some (JObj d)) net b =
  broadcast_extension_event (JObj d) net b.
Proof.
  intros Hty. rewrite broadcast_extension_event_run.
  unfold process_extension_message, try_except, lift, mbind, M_bind.
  cbn -[broadcast_extension_event]. rewrite Hty.
  cbn -[broadcast_extension_event].
  by rewrite broadcast_extension_event_run.
Qed.

(** *** One message at a time *)

Lemma process_cdp_message_absent client d net b :
  extension_client b = None →
  process_cdp_message client (Some (JObj d)) net b =
  Result b [(client, cdp_not_connected (default JNull (Dict.get "id" d)))] (Done tt).
Proof.
  intros Hnone. unfold process_cdp_message. run_coroutine.
  by rewrite Hnone.
Qed.

Lemma process_cdp_message_forward client d agent net b :
  extension_client b = Some agent →
  hashable (default JNull (Dict.get "id" d)) = true →
  process_cdp_message client (Some (JObj d)) net b =
  Result
    (set_pending_cdp_requests
       (Pending.store (default JNull (Dict.get "id" d)) client
          (pending_cdp_requests b)) b)
    [(agent, JObj [("type", JStr "cdp_command");
                   ("id", default JNull (Dict.get "id" d));
                   ("method", default JNull (Dict.get "method" d));
                   ("params", default (JObj []) (Dict.get "params" d))])]
    (Done tt).
Proof.
  intros Hagent Hhash. unfold process_cdp_message. run_coroutine.
  rewrite Hagent; simpl. rewrite Hhash; simpl. by rewrite Hagent.
Qed.

Lemma process_brop_message_absent client d net b :
  extension_client b = None →
  command_is_dict d →
  process_brop_message client (Some (JObj d)) net b =
  Result (set_message_counter (message_counter b + 1) b)
    [(client, brop_not_connected (brop_message_id d b))] (Done tt).
Proof.
  intros Hnone Hcmd. unfold process_brop_message, command_is_dict in *.
  run_coroutine.
  destruct (Dict.get "command" d) as [[]|]; simpl; try done;
    by rewrite Hnone.
Qed.

Lemma process_brop_message_forward client d agent net b :
  extension_client b = Some agent →
  command_is_dict d →
  hashable (brop_message_id d b) = true →
  process_brop_message client (Some (JObj d)) net b =
  Result
    (set_pending_brop_requests
       (Pending.store (brop_message_id d b) client (pending_brop_requests b))
       (set_message_counter (message_counter b + 1) b))
    [(agent, JObj (Dict.set "type" (JStr "brop_command")
                     (Dict.set "id" (brop_message_id d b) d)))]
    (Done tt).
Proof.
  intros Hagent Hcmd Hhash. unfold process_brop_message, command_is_dict in *.
  unfold brop_message_id in *. run_coroutine.
  destruct (Dict.get "command" d) as [[]|]; simpl; try done;
    rewrite Hagent; simpl; rewrite Hhash; simpl; by rewrite Hagent.
Qed.

(** A reply whose id is pending for a CDP client. *)
Lemma process_extension_message_cdp_reply d client net b :
  Dict.get "type" d = Some (JStr "response") →
  hashable (default JNull (Dict.get "id" d)) = true →
  Pending.lookup (default JNull (Dict.get "id" d)) (pending_cdp_requests b)
    = Some client →
  ∃ cdp_response,
    convert_to_cdp_response (JObj d) = Done cdp_response ∧
    process_extension_message (Some (JObj d)) net b =
    Result
      (set_pending_cdp_requests
         (Pending.remove (default JNull (Dict.get "id" d))
            (pending_cdp_requests b)) b)
      [(client, cdp_response)] (Done tt).
Proof.
  intros Hty Hhash Hin.
  destruct (convert_to_cdp_response (JObj d)) as [x|e] eqn:Hconv.
  - exists x. split; [done|].
    unfold process_extension_message. run_coroutine.
    rewrite Hty; simpl. rewrite Hhash; simpl.
    rewrite (pending_contains_lookup _ _ _ Hin); simpl.
    rewrite Hin; simpl. by rewrite Hconv.
  - exfalso. unfold convert_to_cdp_response in Hconv.
    unfold mbind, outcome_bind, mret, outcome_ret in Hconv; simpl in Hconv.
    by destruct (truthy _).
Qed.

(** A reply whose id is pending for a BROP client and for no CDP client. *)
Lemma process_extension_message_brop_reply d client net b :
  Dict.get "type" d = Some (JStr "response") →
  hashable (default JNull (Dict.get "id" d)) = true →
  Pending.lookup (default JNull (Dict.get "id" d)) (pending_cdp_requests b)
    = None →
  Pending.lookup (default JNull (Dict.get "id" d)) (pending_brop_requests b)
    = Some client →
  process_extension_message (Some (JObj d)) net b =
  Result
    (set_pending_brop_requests
       (Pending.remove (default JNull (Dict.get "id" d))
          (pending_brop_requests b)) b)
    [(client, JObj d)] (Done tt).
Proof.
  intros Hty Hhash Hcdp Hbrop.
  unfold process_extension_message. run_coroutine.
  rewrite Hty; simpl. rewrite Hhash; simpl.
  rewrite (pending_contains_None _ _ Hcdp); simpl.
  rewrite (pending_contains_lookup _ _ _ Hbrop); simpl.
  by rewrite Hbrop.
Qed.

(** *** Requests while no agent is registered *)

(** C1: while no extension agent is registered, a request on the CDP
    endpoint (a JSON object) and a request on the BROP endpoint (a JSON
    object whose [command], if any, is an object) each make the bridge call
    [send] exactly once, on the requesting client, with the error reply that
    carries the request's id (for a BROP request without id, the id the
    bridge gave it); nothing goes to any other connection, the agent slot
    stays empty and neither pending dict changes. *)
Theorem agent_absent_error_reply client d net b :
  extension_client b = None →
  let r := process_cdp_message client (Some (JObj d)) net b in
  let r' := process_brop_message client (Some (JObj d)) net b in
  (sent r =
     [(client,
       JObj [("id", default JNull (Dict.get "id" d));
             ("error", JObj [("code", JInt (-32000));
                             ("message", JStr "Chrome extension not connected")])])]
   ∧ final r = b)
  ∧ (command_is_dict d →
     sent r' =
       [(client,
         JObj [("id", brop_message_id d b);
               ("success", JBool false);
               ("error", JStr "Chrome extension not connected")])]
     ∧ (∀ v, Dict.get "id" d = Some v → brop_message_id d b = v)
     ∧ extension_client (final r') = None
     ∧ pending_cdp_requests (final r') = pending_cdp_requests b
     ∧ pending_brop_requests (final r') = pending_brop_requests b).
Proof.
  intros Hnone r r'. split.
  - subst r. by rewrite process_cdp_message_absent.
  - intros Hcmd. subst r'.
    rewrite process_brop_message_absent by done. simpl.
    repeat split; try done.
    intros v Hv. unfold brop_message_id. by rewrite Hv.
Qed.

(** *** Replies of the agent *)

Lemma convert_to_cdp_response_run d :
  convert_to_cdp_response (JObj d) =
  Done
    (if truthy (default (JBool false) (Dict.get "success" d)) then
       JObj [("id", default JNull (Dict.get "id" d));
             ("result", default (JObj []) (Dict.get "result" d))]
     else
       JObj [("id", default JNull (Dict.get "id" d));
             ("error",
              JObj [("code", JInt (-32000));
                    ("message",
                     JStr (py_str (default (JStr "Unknown error")
                                     (Dict.get "error" d))))])]).
Proof.
  unfold convert_to_cdp_response, mbind, outcome_bind, mret, outcome_ret; simpl.
  by destruct (truthy _).
Qed.

(** C2: the conversion of an agent response [d] for a CDP client gives
    [{id, result}], with [result] defaulting to [{}], when [success] is
    true, and [{id, error: {code: -32000, message: str(error)}}] when
    [success] is false or absent; whatever the response holds, an error
    reply has code -32000; and the converted object is what the client of
    a pending CDP request is sent. *)
Theorem cdp_response_conversion d :
  let message_id := default JNull (Dict.get "id" d) in
  let failure :=
    JObj [("id", message_id);
          ("error",
           JObj [("code", JInt (-32000));
                 ("message",
                  JStr (py_str (default (JStr "Unknown error")
                                  (Dict.get "error" d))))])] in
  (Dict.get "success" d = Some (JBool true) →
   convert_to_cdp_response (JObj d) =
   Done (JObj [("id", message_id);
               ("result", default (JObj []) (Dict.get "result" d))]))
  ∧ (Dict.get "success" d = Some (JBool false) ∨ Dict.get "success" d = None →
     convert_to_cdp_response (JObj d) = Done failure)
  ∧ (convert_to_cdp_response (JObj d) = Done failure
     ∨ ∃ result, convert_to_cdp_response (JObj d) =
                 Done (JObj [("id", message_id); ("result", result)]))
  ∧ (∀ net b client,
       Dict.get "type" d = Some (JStr "response") →
       hashable message_id = true →
       Pending.lookup message_id (pending_cdp_requests b) = Some client →
       ∃ cdp_response,
         convert_to_cdp_response (JObj d) = Done cdp_response ∧
         sent (process_extension_message (Some (JObj d)) net b)
         = [(client, cdp_response)]).
Proof.
  intros message_id failure. subst message_id failure.
  rewrite convert_to_cdp_response_run. repeat split.
  - by intros ->.
  - by intros [-> | ->].
  - destruct (truthy _); [right; eauto | by left].
  - intros net b client Hty Hhash Hin.
    destruct (process_extension_message_cdp_reply d client net b Hty Hhash Hin)
      as (x & Hx & Hrun).
    exists x. rewrite Hrun. split; [|done].
    by rewrite <- Hx, convert_to_cdp_response_run.
Qed.

(** C5: an agent response whose id the bridge resolves to a pending BROP
    request (the id is pending in the BROP dict and not in the CDP dict) is
    sent to the client of that request as the agent's object itself, and to
    nobody else; the entry is removed. *)
Theorem brop_reply_forwarded_unmodified d client net b :
  Dict.get "type" d = Some (JStr "response") →
  let request_id := default JNull (Dict.get "id" d) in
  hashable request_id = true →
  Pending.lookup request_id (pending_cdp_requests b) = None →
  Pending.lookup request_id (pending_brop_requests b) = Some client →
  let r := process_extension_message (Some (JObj d)) net b in
  sent r = [(client, JObj d)]
  ∧ final r =
    set_pending_brop_requests
      (Pending.remove request_id (pending_brop_requests b)) b.
Proof.
  intros Hty request_id Hhash Hcdp Hbrop r. subst r request_id.
  by rewrite (process_extension_message_brop_reply d client).
Qed.

(** *** Messages of the agent that are none of the three kinds *)

Lemma eq_str_false (j : json) s : j ≠ JStr s → eq_str j s = false.
Proof.
  destruct j; simpl; try done.
  intros Hne. destruct (String.eqb_spec s0 s); congruence.
Qed.

(** C10: an extension message whose [type] is none of "response", "event"
    and "log", or that has no [type], is dropped: no [send] is called and
    the bridge (pending dicts, client sets, agent slot, counter) is left as
    it was.  The same holds for a frame that is not a JSON object. *)
Theorem other_extension_message_discarded d net b :
  Dict.get "type" d ≠ Some (JStr "response") →
  Dict.get "type" d ≠ Some (JStr "event") →
  Dict.get "type" d ≠ Some (JStr "log") →
  process_extension_message (Some (JObj d)) net b = Result b [] (Done tt)
  ∧ (∀ message, (∀ d', message ≠ Some (JObj d')) →
       process_extension_message message net b = Result b [] (Done tt)).
Proof.
  intros Hr He Hl. split.
  - unfold process_extension_message. run_coroutine.
    rewrite !eq_str_false; [done|..];
      destruct (Dict.get "type" d); simpl; congruence.
  - intros [[]|] Hm; try done. by destruct (Hm fields).
Qed.

(** *** Events *)

(** C6: for an extension event [d] (a JSON object with [type] "event"),
    when [event_type] is one of "console", "page_load" and "navigation",
    [send] is called once for every connected CDP client with
    [{method: "Runtime." + event_type, params}] ([params] defaulting to
    [{}]) and once for every connected BROP client with the event object
    itself; otherwise [send] is called once for every connected BROP client
    with the event object itself and for nobody else.  The bridge is left
    as it was. *)
Theorem event_fan_out d net b :
  Dict.get "type" d = Some (JStr "event") →
  let r := process_extension_message (Some (JObj d)) net b in
  final r = b
  ∧ (∀ kind,
       Dict.get "event_type" d = Some (JStr kind) → kind ∈ cdp_event_kinds →
       let notification :=
         JObj [("method", JStr ("Runtime." ++ kind));
               ("params", default (JObj []) (Dict.get "params" d))] in
       sent r = (fan_out (cdp_clients b) notification
                 ++ fan_out (brop_clients b) (JObj d))%list
       ∧ (∀ c, c ∈ cdp_clients b → (c, notification) ∈ sent r)
       ∧ (∀ c, c ∈ brop_clients b → (c, JObj d) ∈ sent r)
       ∧ length (sent r) = size (cdp_clients b) + size (brop_clients b))
  ∧ ((∀ kind, Dict.get "event_type" d = Some (JStr kind) →
              kind ∉ cdp_event_kinds) →
     sent r = fan_out (brop_clients b) (JObj d)
     ∧ (∀ c, c ∈ brop_clients b → (c, JObj d) ∈ sent r)
     ∧ (∀ c m, (c, m) ∈ sent r → c ∈ brop_clients b ∧ m = JObj d)
     ∧ length (sent r) = size (brop_clients b)).
Proof.
  intros Hty r. subst r.
  rewrite process_extension_message_event, broadcast_extension_event_run by done.
  cbn [final sent]. split; [done|]. split.
  - intros kind Hkind Hin.
    assert (in_strs (default JNull (Dict.get "event_type" d)) cdp_event_kinds
            = true) as Hs.
    { apply in_strs_true. exists kind. by rewrite Hkind. }
    cbn zeta. rewrite Hs, Hkind. cbn [default py_str].
    split; [reflexivity|]. split; [|split].
    + intros c Hc. apply elem_of_app. left. by apply elem_of_fan_out.
    + intros c Hc. apply elem_of_app. right. by apply elem_of_fan_out.
    + by rewrite length_app, !length_fan_out.
  - intros Hout.
    assert (in_strs (default JNull (Dict.get "event_type" d)) cdp_event_kinds
            = false) as Hs.
    { destruct (in_strs _ _) eqn:E; [|done].
      apply in_strs_true in E as (kind & Heq & Hin).
      destruct (Dict.get "event_type" d) as [v|] eqn:Hv; simpl in Heq; [|done].
      subst v. by destruct (Hout kind). }
    rewrite Hs. cbn [app].
    split; [reflexivity|]. split; [|split].
    + intros c Hc. by apply elem_of_fan_out.
    + intros c m Hin. by apply elem_of_fan_out in Hin.
    + apply length_fan_out.
Qed.

Lemma delivered_fan_out net clients m :
  delivered net (fan_out clients m) =
  (fun c => (c, m)) <$> filter (fun c => net c = false) (elements clients).
Proof.
  unfold delivered, fan_out.
  induction (elements clients) as [|c l IH]; [done|].
  rewrite fmap_cons, !filter_cons. simpl.
  destruct (decide (net c = false)); [rewrite fmap_cons; f_equal|]; apply IH.
Qed.

Lemma elem_of_delivered_fan_out net clients m c :
  c ∈ clients → net c = false → (c, m) ∈ delivered net (fan_out clients m).
Proof.
  intros Hc Hup. unfold delivered. apply list_elem_of_filter.
  split; [done|]. by apply elem_of_fan_out.
Qed.

(** The frames that arrive when the transport of exactly one client of the
    set raises. *)
Lemma delivered_all_but_one net clients m k :
  k ∈ clients →
  (∀ c, c ∈ clients → net c = true ↔ c = k) →
  length (delivered net (fan_out clients m)) = size clients - 1.
Proof.
  intros Hk Hnet. rewrite delivered_fan_out, length_fmap.
  assert (filter (fun c => net c = false) (elements clients)
          ≡ₚ elements (clients ∖ {[k]})) as ->.
  { apply NoDup_Permutation.
    - apply NoDup_filter, NoDup_elements.
    - apply NoDup_elements.
    - intros c. rewrite list_elem_of_filter, !elem_of_elements, elem_of_difference,
        elem_of_singleton.
      split.
      + intros [Hup Hc]. split; [done|]. intros ->.
        assert (net k = true) by by apply Hnet. congruence.
      + intros [Hc Hne]. split; [|done].
        destruct (net c) eqn:E; [|done]. by apply Hnet in E. }
  change (size (clients ∖ {[k]}) = size clients - 1).
  rewrite size_difference, size_singleton; [done|].
  by apply singleton_subseteq_l.
Qed.

(** C7: a broadcast to the clients of one set returns whatever the
    transports do, and every client of the set whose own transport works
    gets the frame, however many of the other sends raise: with N clients of
    which exactly one has a raising transport, N-1 frames arrive.  Frames go
    to clients of the set only, and the processing of an event returns
    without raising, so no failure reaches the handler of the agent
    connection. *)
Theorem broadcast_failures_isolated m net b :
  let r1 := broadcast_to_cdp_clients m net b in
  let r2 := broadcast_to_brop_clients m net b in
  (ending r1 = Done tt ∧ final r1 = b
   ∧ (∀ c, c ∈ cdp_clients b → net c = false → (c, m) ∈ delivered net (sent r1))
   ∧ (∀ k, k ∈ cdp_clients b →
           (∀ c, c ∈ cdp_clients b → net c = true ↔ c = k) →
           length (delivered net (sent r1)) = size (cdp_clients b) - 1)
   ∧ (∀ c m', (c, m') ∈ sent r1 → c ∈ cdp_clients b))
  ∧ (ending r2 = Done tt ∧ final r2 = b
     ∧ (∀ c, c ∈ brop_clients b → net c = false → (c, m) ∈ delivered net (sent r2))
     ∧ (∀ k, k ∈ brop_clients b →
             (∀ c, c ∈ brop_clients b → net c = true ↔ c = k) →
             length (delivered net (sent r2)) = size (brop_clients b) - 1)
     ∧ (∀ c m', (c, m') ∈ sent r2 → c ∈ brop_clients b))
  ∧ (∀ d, ending (broadcast_extension_event (JObj d) net b) = Done tt
          ∧ final (broadcast_extension_event (JObj d) net b) = b).
Proof.
  intros r1 r2. subst r1 r2.
  rewrite broadcast_to_cdp_clients_run, broadcast_to_brop_clients_run. simpl.
  repeat split.
  - intros c Hc Hup. by apply elem_of_delivered_fan_out.
  - intros k Hk Hnet. by apply delivered_all_but_one with k.
  - intros c m' Hin. by apply elem_of_fan_out in Hin as [? _].
  - intros c Hc Hup. by apply elem_of_delivered_fan_out.
  - intros k Hk Hnet. by apply delivered_all_but_one with k.
  - intros c m' Hin. by apply elem_of_fan_out in Hin as [? _].
  - by rewrite broadcast_extension_event_run.
  - by rewrite broadcast_extension_event_run.
Qed.

(** *** What a coroutine keeps *)

Section Keeps.

Context (R : relation bridge) `{!PreOrder R}.

Lemma keeps_ret {A} (a : A) : keeps R (mret a).
Proof. intros net b. simpl. reflexivity. Qed.

Lemma keeps_lift {A} (o : outcome A) : keeps R (lift o).
Proof. intros net b. simpl. reflexivity. Qed.

Lemma keeps_gets {A} (f : bridge → A) : keeps R (gets f).
Proof. intros net b. simpl. reflexivity. Qed.

Lemma keeps_send c m : keeps R (send c m).
Proof. intros net b. simpl. reflexivity. Qed.

Lemma keeps_modify f : (∀ b, R b (f b)) → keeps R (modify f).
Proof. intros Hf net b. apply Hf. Qed.

Lemma keeps_bind {A B} (m : M A) (f : A → M B) :
  keeps R m → (∀ a, keeps R (f a)) → keeps R (m ≫= f).
Proof.
  intros Hm Hf net b. unfold mbind, M_bind.
  specialize (Hm net b).
  destruct (m net b) as [b1 s1 [a|e]]; simpl in *; [|done].
  specialize (Hf a net b1).
  destruct (f a net b1) as [b2 s2 o]; simpl in *.
  by transitivity b1.
Qed.

Lemma keeps_try_except body : keeps R body → keeps R (try_except body).
Proof.
  intros Hm net b. unfold try_except. specialize (Hm net b).
  by destruct (body net b).
Qed.

Lemma keeps_gather coros : Forall (keeps R) coros → keeps R (gather coros).
Proof.
  induction 1 as [|c cs Hc _ IH]; intros net b; simpl; [reflexivity|].
  specialize (Hc net b). destruct (c net b) as [b1 s1 o1]; simpl in *.
  specialize (IH net b1). destruct (gather cs net b1) as [b2 s2 [os|e]];
    simpl in *; by transitivity b1.
Qed.

Lemma keeps_begin_handler body fin :
  keeps R body → keeps R fin → keeps R (begin_handler body fin).
Proof.
  intros Hbody Hfin net b. unfold begin_handler.
  specialize (Hbody net b).
  destruct (body net b) as [b1 s1 [[]|e]]; simpl in *; try done;
    specialize (Hfin net b1);
    destruct (fin net b1) as [b2 s2 [?|?]]; simpl in *; by transitivity b1.
Qed.

Lemma keeps_pending_in field k : keeps R (pending_in field k).
Proof. intros net b. unfold pending_in. destruct (hashable k); simpl; reflexivity. Qed.

Lemma keeps_pending_setitem field setter k c :
  (∀ v b, R b (setter v b)) → keeps R (pending_setitem field setter k c).
Proof.
  intros Hset net b. unfold pending_setitem.
  destruct (hashable k); simpl; [apply Hset|reflexivity].
Qed.

Lemma keeps_pending_pop field setter k :
  (∀ v b, R b (setter v b)) → keeps R (pending_pop field setter k).
Proof.
  intros Hset net b. unfold pending_pop.
  destruct (hashable k); simpl; [|reflexivity].
  destruct (Pending.lookup k (field b)); simpl; [apply Hset|reflexivity].
Qed.

End Keeps.

#[local] Instance counter_le_preorder : PreOrder counter_le.
Proof.
  split.
  - intros b. unfold counter_le. lia.
  - intros b1 b2 b3. unfold counter_le. lia.
Qed.

Ltac keeps_counter :=
  repeat first
    [ apply (keeps_try_except counter_le)
    | apply (keeps_bind counter_le); [|intros ?]
    | apply (keeps_ret counter_le)
    | apply (keeps_lift counter_le)
    | apply (keeps_gets counter_le)
    | apply (keeps_send counter_le)
    | apply (keeps_pending_in counter_le)
    | apply (keeps_pending_setitem counter_le);
        [intros ? ?; unfold counter_le; simpl; lia]
    | apply (keeps_pending_pop counter_le);
        [intros ? ?; unfold counter_le; simpl; lia]
    | apply (keeps_modify counter_le); [intros ?; unfold counter_le; simpl; lia]
    | apply (keeps_begin_handler counter_le)
    | apply (keeps_gather counter_le), Forall_fmap, Forall_forall;
        intros ? _; apply (keeps_send counter_le)
    | match goal with
      | |- keeps _ (if ?c then _ else _) => destruct c
      | |- keeps _ (match ?x with _ => _ end) => destruct x
      end ].

(** No event makes the counter go down. *)
Lemma step_counter_le e : keeps counter_le (step e).
Proof.
  destruct e; unfold step, handle_extension_client_begin,
    handle_extension_client_message, handle_extension_client_end,
    handle_cdp_client_begin, handle_cdp_client_message, handle_cdp_client_end,
    handle_brop_client_begin, handle_brop_client_message, handle_brop_client_end,
    process_extension_message, process_cdp_message, process_brop_message,
    broadcast_extension_event, broadcast_to_cdp_clients, broadcast_to_brop_clients,
    get_next_message_id, get_browser_tabs, extension_client_send;
    keeps_counter.
Qed.

Lemma run_counter_le es : keeps counter_le (run es).
Proof.
  induction es as [|e es IH]; simpl.
  - apply (keeps_ret counter_le).
  - apply (keeps_bind counter_le); [apply step_counter_le|by intros _].
Qed.

(** *** Forwarding and tracking *)

Lemma pending_lookup_hashable k d c :
  Pending.lookup k d = Some c → hashable k = true.
Proof.
  induction d as [|[k' c'] d IH]; simpl; [done|].
  destruct (py_eqb k k') eqn:E; [|done].
  intros _. by destruct k.
Qed.

Lemma pending_remove_store_new k c d :
  py_eqb k k = true → Pending.lookup k d = None →
  Pending.remove k (Pending.store k c d) = d.
Proof.
  intros Hk. induction d as [|[k' c'] d IH]; simpl.
  - by rewrite Hk.
  - destruct (py_eqb k k') eqn:E; [done|]. simpl. rewrite E.
    intros Hd. by rewrite IH.
Qed.

(** C8: a BROP request that is forwarded reaches the agent as the client's
    object with [type] set to "brop_command" and [id] set to the client's
    id or, when the client gave none, to "bridge_" followed by the value of
    the counter after its increment; the [command] and every field other
    than [id] and [type] are those of the client's object.  The counter
    grows by one with the request and never goes down afterwards. *)
Theorem brop_forward_adds_envelope client d agent net b :
  extension_client b = Some agent →
  command_is_dict d →
  hashable (brop_message_id d b) = true →
  let r := process_brop_message client (Some (JObj d)) net b in
  ∃ forwarded,
    sent r = [(agent, JObj forwarded)]
    ∧ forwarded = Dict.set "type" (JStr "brop_command")
                    (Dict.set "id" (brop_message_id d b) d)
    ∧ Dict.get "type" forwarded = Some (JStr "brop_command")
    ∧ Dict.get "id" forwarded = Some (brop_message_id d b)
    ∧ Dict.get "command" forwarded = Dict.get "command" d
    ∧ (∀ k, k ≠ "id" → k ≠ "type" → Dict.get k forwarded = Dict.get k d)
    ∧ (∀ v, Dict.get "id" d = Some v → brop_message_id d b = v)
    ∧ (Dict.get "id" d = None →
       brop_message_id d b
       = JStr ("bridge_" ++ decimal (Z.of_N (message_counter (final r)))))
    ∧ message_counter (final r) = (message_counter b + 1)%N
    ∧ (∀ es net',
         (message_counter (final r)
          ≤ message_counter (final (run es net' (final r))))%N).
Proof.
  intros Hagent Hcmd Hhash r. subst r.
  rewrite (process_brop_message_forward _ _ agent) by done. cbn [sent final].
  eexists. split; [reflexivity|]. split; [reflexivity|].
  split; [apply dict_get_set_eq|].
  split; [rewrite dict_get_set_ne by done; apply dict_get_set_eq|].
  split; [by rewrite !dict_get_set_ne|].
  split; [intros k Hid Hty; by rewrite !dict_get_set_ne|].
  unfold brop_message_id.
  split; [by intros v ->|]. split; [by intros ->|].
  split; [done|]. intros es net'. apply run_counter_le.
Qed.

(** C4, in the form that holds of the code: a second request whose id is already pending in its
    protocol replaces the client stored for the first one (the last request
    wins), and is forwarded to the agent like any other. *)
Theorem second_request_replaces_origin first_client second_client d agent net b :
  extension_client b = Some agent →
  (Pending.lookup (default JNull (Dict.get "id" d)) (pending_cdp_requests b)
     = Some first_client →
   let r := process_cdp_message second_client (Some (JObj d)) net b in
   Pending.lookup (default JNull (Dict.get "id" d)) (pending_cdp_requests (final r))
     = Some second_client
   ∧ ∃ forwarded, sent r = [(agent, forwarded)])
  ∧ (command_is_dict d →
     Pending.lookup (brop_message_id d b) (pending_brop_requests b)
       = Some first_client →
     let r := process_brop_message second_client (Some (JObj d)) net b in
     Pending.lookup (brop_message_id d b) (pending_brop_requests (final r))
       = Some second_client
     ∧ ∃ forwarded, sent r = [(agent, forwarded)]).
Proof.
  intros Hagent. split.
  - intros Hfirst r. subst r.
    rewrite (process_cdp_message_forward _ _ agent);
      [|done|by eapply pending_lookup_hashable].
    simpl. split; [by eapply pending_lookup_store_hit|eauto].
  - intros Hcmd Hfirst r. subst r.
    rewrite (process_brop_message_forward _ _ agent);
      [|done|done|by eapply pending_lookup_hashable].
    simpl. split; [by eapply pending_lookup_store_hit|eauto].
Qed.

Lemma py_eqb_hashable k k' : py_eqb k k' = true → hashable k = true.
Proof. by destruct k. Qed.

(** A CDP request and a BROP request with the same id, not pending before,
    are both tracked, each in the dict of its protocol. *)
Lemma same_id_tracked_in_both_dicts net b agent n cdp_client brop_client d1 d2 :
  extension_client b = Some agent →
  Dict.get "id" d1 = Some n →
  Dict.get "id" d2 = Some n →
  command_is_dict d2 →
  py_eqb n n = true →
  Pending.lookup n (pending_cdp_requests b) = None →
  let b' := final (run [CdpMessage cdp_client (Some (JObj d1));
                        BropMessage brop_client (Some (JObj d2))] net b) in
  Pending.lookup n (pending_cdp_requests b') = Some cdp_client
  ∧ Pending.lookup n (Pending.remove n (pending_cdp_requests b')) = None
  ∧ Pending.lookup n (pending_brop_requests b') = Some brop_client.
Proof.
  intros Hagent Hid1 Hid2 Hcmd Hn Hnew b'. subst b'.
  pose proof (py_eqb_hashable _ _ Hn) as Hhash.
  unfold run, step, handle_cdp_client_message, handle_brop_client_message,
    mbind, M_bind, mret, M_ret.
  rewrite (process_cdp_message_forward _ _ agent) by (by rewrite ?Hid1).
  rewrite (process_brop_message_forward _ _ agent);
    [|done|done|unfold brop_message_id; by rewrite Hid2].
  unfold brop_message_id. rewrite Hid1, Hid2. simpl.
  split; [by apply pending_lookup_store_new|].
  split; [by rewrite pending_remove_store_new|].
  by apply pending_lookup_store_new.
Qed.

(** C3, in the form that holds of the code: a reply of the agent carries
    no protocol tag; its id is looked up in the CDP dict first and in the
    BROP dict only when it is not pending there.  With a CDP request and a
    BROP request of the same id [n] both pending, the reply for [n] that
    arrives first goes to the CDP client in CDP shape and the one that
    arrives second goes to the BROP client as it is, whichever request each
    of them answers; both entries are then gone. *)
Theorem replies_resolved_cdp_first
    net b agent n cdp_client brop_client first second :
  hashable n = true →
  Pending.lookup n (pending_cdp_requests b) = Some cdp_client →
  Pending.lookup n (Pending.remove n (pending_cdp_requests b)) = None →
  Pending.lookup n (pending_brop_requests b) = Some brop_client →
  is_reply_for n first →
  is_reply_for n second →
  let r := run [ExtensionMessage agent (Some (JObj first));
                ExtensionMessage agent (Some (JObj second))] net b in
  ∃ cdp_response,
    convert_to_cdp_response (JObj first) = Done cdp_response
    ∧ sent r = [(cdp_client, cdp_response); (brop_client, JObj second)]
    ∧ pending_cdp_requests (final r) = Pending.remove n (pending_cdp_requests b)
    ∧ pending_brop_requests (final r) = Pending.remove n (pending_brop_requests b).
Proof.
  intros Hhash Hcdp Honce Hbrop [Hty1 Hid1] [Hty2 Hid2] r. subst r.
  destruct (process_extension_message_cdp_reply first cdp_client net b)
    as (x & Hx & Hrun1); rewrite ?Hid1; try done.
  exists x. split; [done|].
  unfold run, step, handle_extension_client_message, mbind, M_bind, mret, M_ret.
  rewrite Hrun1, Hid1.
  rewrite (process_extension_message_brop_reply second brop_client);
    rewrite ?Hid2; done.
Qed.

(** *** The agent slot *)

(** C9: the handler of an agent connection empties the agent slot when it
    terminates, whatever the slot holds.  When a second agent connection
    [new] has taken the slot, the end of the handler of the first
    connection [old] leaves the bridge without agent, and the requests that
    follow on either client endpoint are answered with the agent-absent
    error.  The same clause runs when the handler terminates on an error
    before its first message: a connection whose welcome cannot be sent
    ends its handler and leaves the slot empty, whatever agent held it. *)
Theorem stale_agent_end_clears_slot old new t1 t2 net b :
  net new = false →
  let b1 := final (run [ExtensionAccept old t1; ExtensionAccept new t2] net b) in
  let b2 := final (step (ExtensionEnd old) net b1) in
  extension_client b1 = Some new
  ∧ extension_client b2 = None
  ∧ (∀ client d,
       sent (process_cdp_message client (Some (JObj d)) net b2)
       = [(client, cdp_not_connected (default JNull (Dict.get "id" d)))])
  ∧ (∀ client d,
       command_is_dict d →
       sent (process_brop_message client (Some (JObj d)) net b2)
       = [(client, brop_not_connected (brop_message_id d b2))])
  ∧ (∀ b' ws, extension_client (final (handle_extension_client_end ws net b')) = None)
  ∧ (∀ b' ws now,
       net ws = true →
       let r := handle_extension_client_begin ws now net b' in
       ending r = Done false
       ∧ extension_client (final r) = None
       ∧ (∀ client d,
            sent (process_cdp_message client (Some (JObj d)) net (final r))
            = [(client, cdp_not_connected (default JNull (Dict.get "id" d)))])).
Proof.
  intros Hnew b1 b2.
  assert (extension_client b1 = Some new) as H1.
  { subst b1. unfold run, step, handle_extension_client_begin, begin_handler,
      handle_extension_client_end.
    run_coroutine. destruct (net old); simpl; by rewrite Hnew. }
  assert (extension_client b2 = None) as H2 by done.
  split; [done|]. split; [done|]. split; [|split; [|split]].
  - intros client d. by rewrite process_cdp_message_absent.
  - intros client d Hcmd. by rewrite process_brop_message_absent.
  - done.
  - intros b' ws now Hdown.
    assert (handle_extension_client_begin ws now net b'
            = Result (set_extension_client None b')
                [(ws, JObj [("type", JStr "welcome");
                            ("message",
                             JStr "BROP Bridge Server - Extension connected successfully");
                            ("timestamp", JFloat now)])]
                (Done false)) as Hrun.
    { unfold handle_extension_client_begin, begin_handler,
        handle_extension_client_end.
      run_coroutine. by rewrite Hdown. }
    rewrite Hrun. cbn [ending final]. split; [done|]. split; [done|].
    intros client d. by rewrite process_cdp_message_absent.
Qed.

(** ** Further properties of the routing *)

(** *** Requests of CDP clients *)

(** A hashable object is a key that finds itself. *)
Lemma py_eqb_refl k : hashable k = true → py_eqb k k = true.
Proof.
  destruct k as [|x|n|f|s| |]; simpl; try done; intros _.
  - by destruct x.
  - apply Z.eqb_refl.
  - destruct f as [sg|sg| |sg m e]; try done; try by destruct sg.
    unfold SFeqb, SFcompare.
    destruct sg; by rewrite Z.compare_refl, Pos.compare_cont_refl.
  - apply String.eqb_refl.
Qed.

(** NaN is one key: a second store under NaN replaces the client of the
    first, and NaN is then found and removed. *)
Lemma nan_is_one_key c1 c2 :
  Pending.store (JFloat S754_nan) c2 (Pending.store (JFloat S754_nan) c1 [])
  = [(JFloat S754_nan, c2)]
  ∧ Pending.lookup (JFloat S754_nan) [(JFloat S754_nan, c2)] = Some c2
  ∧ Pending.remove (JFloat S754_nan) [(JFloat S754_nan, c2)] = [].
Proof. done. Qed.

(** X1: with an agent registered, a CDP request whose id is hashable is
    sent to the agent, and to nobody else, as
    [{type: "cdp_command", id, method, params}], where a missing [id] or
    [method] is [None] and missing [params] are [{}]; the client is stored
    under the id in the CDP dict, where the id is then pending for the
    client, and nothing else of the bridge changes. *)
Theorem cdp_request_forwarded client d agent net b :
  extension_client b = Some agent →
  let message_id := default JNull (Dict.get "id" d) in
  hashable message_id = true →
  let r := process_cdp_message client (Some (JObj d)) net b in
  sent r = [(agent, JObj [("type", JStr "cdp_command");
                          ("id", message_id);
                          ("method", default JNull (Dict.get "method" d));
                          ("params", default (JObj []) (Dict.get "params" d))])]
  ∧ final r = set_pending_cdp_requests
                (Pending.store message_id client (pending_cdp_requests b)) b
  ∧ Pending.lookup message_id (pending_cdp_requests (final r)) = Some client.
Proof.
  intros Hagent message_id Hhash r. subst r message_id.
  rewrite (process_cdp_message_forward _ _ agent) by done. cbn [sent final].
  split; [done|]. split; [done|].
  cbn [pending_cdp_requests set_pending_cdp_requests].
  by apply pending_lookup_store_new, py_eqb_refl.
Qed.

(** *** Frames that are dropped *)

(** X2: a response of the agent whose id is pending in neither dict, or is
    not hashable, is dropped: no [send], the bridge as it was. *)
Theorem unknown_reply_dropped d net b :
  Dict.get "type" d = Some (JStr "response") →
  let request_id := default JNull (Dict.get "id" d) in
  hashable request_id = false
  ∨ (Pending.lookup request_id (pending_cdp_requests b) = None
     ∧ Pending.lookup request_id (pending_brop_requests b) = None) →
  process_extension_message (Some (JObj d)) net b = Result b [] (Done tt).
Proof.
  intros Hty request_id Hcase. subst request_id.
  unfold process_extension_message. run_coroutine. rewrite Hty. simpl.
  destruct (hashable (default JNull (Dict.get "id" d))) eqn:Hhash; simpl; [|done].
  destruct Hcase as [?|[Hcdp Hbrop]]; [done|].
  rewrite (pending_contains_None _ _ Hcdp). simpl.
  by rewrite (pending_contains_None _ _ Hbrop).
Qed.

(** X3: a frame of a client that [json.loads] rejects, or that is not a
    JSON object, is dropped on both client endpoints, with or without
    agent: the client gets no reply, nothing is forwarded, the bridge is as
    it was (the counter too). *)
Theorem malformed_client_frame_dropped client message net b :
  (∀ d, message ≠ Some (JObj d)) →
  process_cdp_message client message net b = Result b [] (Done tt)
  ∧ process_brop_message client message net b = Result b [] (Done tt).
Proof.
  intros Hm. destruct message as [[]|]; try done. by destruct (Hm fields).
Qed.

(** X4: a BROP request whose [command] is present and not an object is
    dropped before an id is drawn: no reply (not even the agent-absent
    error), nothing forwarded, the bridge as it was. *)
Theorem brop_command_not_object_dropped client d net b :
  ¬ command_is_dict d →
  process_brop_message client (Some (JObj d)) net b = Result b [] (Done tt).
Proof.
  unfold command_is_dict, process_brop_message. run_coroutine.
  destruct (Dict.get "command" d) as [[]|]; simpl; tauto.
Qed.

(** X5: with an agent registered, a request whose id is a list or an object
    is lost: it is neither forwarded nor tracked and the client gets no
    reply.  On the BROP endpoint the counter has moved all the same. *)
Theorem unhashable_id_request_lost client d agent net b :
  extension_client b = Some agent →
  hashable (default JNull (Dict.get "id" d)) = false →
  process_cdp_message client (Some (JObj d)) net b = Result b [] (Done tt)
  ∧ (command_is_dict d →
     process_brop_message client (Some (JObj d)) net b
     = Result (set_message_counter (message_counter b + 1) b) [] (Done tt)).
Proof.
  intros Hagent Hhash. split.
  - unfold process_cdp_message. run_coroutine.
    rewrite Hagent. simpl. by rewrite Hhash.
  - intros Hcmd. unfold process_brop_message, command_is_dict in *.
    run_coroutine.
    destruct (Dict.get "id" d) as [v|] eqn:Hid; simpl in Hhash; [|done].
    destruct (Dict.get "command" d) as [[]|]; simpl; try done;
      rewrite Hagent; simpl; by rewrite Hhash.
Qed.

(** *** Request and reply *)

(** X6: a CDP request with an id that is not pending yet, followed by the
    agent's reply for that id, gives two frames, the command to the agent
    and the converted reply to the client, and leaves the bridge exactly as
    it was before the request: the entry is gone again. *)
Theorem cdp_round_trip client agent request reply n net b :
  extension_client b = Some agent →
  Dict.get "id" request = Some n →
  py_eqb n n = true →
  Pending.lookup n (pending_cdp_requests b) = None →
  is_reply_for n reply →
  let r := run [CdpMessage client (Some (JObj request));
                ExtensionMessage agent (Some (JObj reply))] net b in
  ∃ cdp_response,
    convert_to_cdp_response (JObj reply) = Done cdp_response
    ∧ sent r = [(agent, JObj [("type", JStr "cdp_command");
                              ("id", n);
                              ("method", default JNull (Dict.get "method" request));
                              ("params", default (JObj []) (Dict.get "params" request))]);
                (client, cdp_response)]
    ∧ final r = b.
Proof.
  intros Hagent Hid Hn Hnew [Hty Hidr] r. subst r.
  pose proof (py_eqb_hashable _ _ Hn) as Hhash.
  set (b1 := set_pending_cdp_requests
               (Pending.store n client (pending_cdp_requests b)) b).
  destruct (process_extension_message_cdp_reply reply client net b1)
    as (x & Hx & Hrun); rewrite ?Hidr; simpl; try done.
  { by apply pending_lookup_store_new. }
  exists x. split; [done|].
  unfold run, step, handle_cdp_client_message, handle_extension_client_message,
    mbind, M_bind, mret, M_ret.
  rewrite (process_cdp_message_forward _ _ agent) by (by rewrite ?Hid).
  rewrite Hid. change (default JNull (Some n)) with n. fold b1.
  rewrite Hrun, Hidr. change (default JNull (Some n)) with n.
  split; [done|].
  subst b1. simpl. rewrite pending_remove_store_new by done. by destruct b.
Qed.

(** X7: a BROP request with an id that is pending in neither dict, followed
    by the agent's reply for that id, gives two frames, the enveloped
    request to the agent and the agent's reply as it is to the client, and
    leaves the bridge as it was but for the counter, which has moved by
    one. *)
Theorem brop_round_trip client agent request reply n net b :
  extension_client b = Some agent →
  command_is_dict request →
  Dict.get "id" request = Some n →
  py_eqb n n = true →
  Pending.lookup n (pending_cdp_requests b) = None →
  Pending.lookup n (pending_brop_requests b) = None →
  is_reply_for n reply →
  let r := run [BropMessage client (Some (JObj request));
                ExtensionMessage agent (Some (JObj reply))] net b in
  sent r = [(agent, JObj (Dict.set "type" (JStr "brop_command")
                            (Dict.set "id" n request)));
            (client, JObj reply)]
  ∧ final r = set_message_counter (message_counter b + 1) b.
Proof.
  intros Hagent Hcmd Hid Hn Hcdp Hnew [Hty Hidr] r. subst r.
  pose proof (py_eqb_hashable _ _ Hn) as Hhash.
  assert (brop_message_id request b = n) as Hmid
    by (unfold brop_message_id; by rewrite Hid).
  unfold run, step, handle_brop_client_message, handle_extension_client_message,
    mbind, M_bind, mret, M_ret.
  rewrite (process_brop_message_forward _ _ agent) by (by rewrite ?Hmid).
  rewrite Hmid.
  rewrite (process_extension_message_brop_reply reply client);
    rewrite ?Hidr; cbn [default]; simpl; try done.
  - rewrite pending_remove_store_new by done. by destruct b.
  - by apply pending_lookup_store_new.
Qed.

(** X8: a request is answered at most once: of two replies for an id that
    is pending once, for a CDP client only, the first is converted and sent
    to the client and the second is dropped. *)
Theorem duplicate_reply_dropped n client first second net b :
  hashable n = true →
  Pending.lookup n (pending_cdp_requests b) = Some client →
  Pending.lookup n (Pending.remove n (pending_cdp_requests b)) = None →
  Pending.lookup n (pending_brop_requests b) = None →
  is_reply_for n first →
  is_reply_for n second →
  let r1 := process_extension_message (Some (JObj first)) net b in
  let r2 := process_extension_message (Some (JObj second)) net (final r1) in
  (∃ cdp_response,
     convert_to_cdp_response (JObj first) = Done cdp_response
     ∧ sent r1 = [(client, cdp_response)])
  ∧ sent r2 = []
  ∧ final r2 = final r1.
Proof.
  intros Hhash Hcdp Honce Hbrop [Hty1 Hid1] [Hty2 Hid2] r1 r2. subst r1 r2.
  destruct (process_extension_message_cdp_reply first client net b)
    as (x & Hx & Hrun1); rewrite ?Hid1; try done.
  rewrite Hrun1, Hid1. cbn [default final sent].
  split; [by exists x|].
  unfold process_extension_message. run_coroutine. rewrite Hty2, Hid2. simpl.
  rewrite Hhash. simpl.
  rewrite (pending_contains_None _ _ Honce). simpl.
  by rewrite (pending_contains_None _ _ Hbrop).
Qed.

(** X9: the end of a client connection leaves its pending entries in
    place: a reply that arrives afterwards is still resolved, handed to
    [send] on the closed connection, and only then is the entry removed.
    The same on both client endpoints. *)
Theorem reply_after_client_disconnect agent n client reply net b :
  hashable n = true →
  is_reply_for n reply →
  (Pending.lookup n (pending_cdp_requests b) = Some client →
   (let r := run [CdpEnd client; ExtensionMessage agent (Some (JObj reply))] net b in
    ∃ cdp_response,
      convert_to_cdp_response (JObj reply) = Done cdp_response
      ∧ sent r = [(client, cdp_response)]
      ∧ (client ∉ cdp_clients (final r))
      ∧ pending_cdp_requests (final r) = Pending.remove n (pending_cdp_requests b)))
  ∧ (Pending.lookup n (pending_cdp_requests b) = None →
     Pending.lookup n (pending_brop_requests b) = Some client →
     (let r := run [BropEnd client; ExtensionMessage agent (Some (JObj reply))] net b in
      sent r = [(client, JObj reply)]
      ∧ (client ∉ brop_clients (final r))
      ∧ pending_brop_requests (final r) = Pending.remove n (pending_brop_requests b))).
Proof.
  intros Hhash [Hty Hid]. split.
  - intros Hcdp r. subst r.
    set (b1 := set_cdp_clients (cdp_clients b ∖ {[client]}) b).
    destruct (process_extension_message_cdp_reply reply client net b1)
      as (x & Hx & Hrun); rewrite ?Hid; try done.
    exists x. split; [done|].
    unfold run, step, handle_cdp_client_end, handle_extension_client_message,
      modify, mbind, M_bind, mret, M_ret.
    fold b1. rewrite Hrun, Hid. simpl.
    split; [done|]. split; [|done].
    intros [_ Hout]%elem_of_difference. by apply Hout, elem_of_singleton.
  - intros Hcdp Hbrop r. subst r.
    set (b1 := set_brop_clients (brop_clients b ∖ {[client]}) b).
    unfold run, step, handle_brop_client_end, handle_extension_client_message,
      modify, mbind, M_bind, mret, M_ret.
    fold b1.
    rewrite (process_extension_message_brop_reply reply client);
      rewrite ?Hid; try done.
    simpl. split; [done|]. split; [|done].
    intros [_ Hout]%elem_of_difference. by apply Hout, elem_of_singleton.
Qed.

(** *** Accepting connections *)

(** X10: a connection of the CDP endpoint on one of the three discovery
    paths is sent one document, the version information on
    [/json/version] and the list of tabs on the two others, and its handler
    ends at once: the connection is not in the set of CDP clients
    afterwards, whether its transport raised or not.  On any other path
    nothing is sent and the connection joins the set. *)
Theorem cdp_discovery_not_registered ws path net b :
  let r := handle_cdp_client_begin ws path net b in
  (discovery_path path →
   ending r = Done false
   ∧ (∃ doc, sent r = [(ws, doc)]
             ∧ (path = "/json/version" → doc = browser_info)
             ∧ (path ≠ "/json/version" → ending (get_browser_tabs net b) = Done doc))
   ∧ final r = set_cdp_clients (cdp_clients b ∖ {[ws]}) b
   ∧ (ws ∉ cdp_clients (final r)))
  ∧ (¬ discovery_path path →
     ending r = Done true
     ∧ sent r = []
     ∧ final r = set_cdp_clients (cdp_clients b ∪ {[ws]}) b
     ∧ ws ∈ cdp_clients (final r)).
Proof.
  intros r. subst r.
  assert (∀ X : gset conn, (X ∪ {[ws]}) ∖ {[ws]} = X ∖ {[ws]}) as Hset.
  { intros X. apply set_eq. intros x.
    rewrite !elem_of_difference, elem_of_union. tauto. }
  assert (ws ∉ cdp_clients b ∖ {[ws]}) as Hout.
  { intros [_ Hne]%elem_of_difference. by apply Hne, elem_of_singleton. }
  unfold handle_cdp_client_begin, begin_handler, handle_cdp_client_end,
    get_browser_tabs, discovery_path.
  run_coroutine.
  destruct (String.eqb_spec path "/json/version") as [->|Hv]; simpl.
  { split; [intros _|tauto].
    destruct (net ws); simpl; rewrite Hset;
      (split; [done|]); (split; [|done]);
      exists browser_info; (split; [done|]); split; done. }
  destruct (String.eqb_spec path "/json") as [->|Hj]; simpl.
  { split; [intros _|tauto].
    destruct (net ws); simpl; rewrite Hset;
      (split; [done|]); (split; [|done]);
      eexists; (split; [reflexivity|]); split; done. }
  destruct (String.eqb_spec path "/json/list") as [->|Hl]; simpl.
  { split; [intros _|tauto].
    destruct (net ws); simpl; rewrite Hset;
      (split; [done|]); (split; [|done]);
      eexists; (split; [reflexivity|]); split; done. }
  split; [tauto|]. intros _. repeat (split; [done|]).
  apply elem_of_union. right. by apply elem_of_singleton.
Qed.

(** X11: an accepted agent connection takes the agent slot whatever the
    slot held, and is sent the welcome, the one frame of the accept (a
    connection that held the slot is told nothing).  If that send raises,
    the handler ends and leaves the slot empty. *)
Theorem agent_accept_takes_slot ws now net b :
  let r := handle_extension_client_begin ws now net b in
  sent r = [(ws, welcome now)]
  ∧ (net ws = false →
     ending r = Done true ∧ final r = set_extension_client (Some ws) b)
  ∧ (net ws = true →
     ending r = Done false ∧ final r = set_extension_client None b).
Proof.
  intros r. subst r.
  unfold handle_extension_client_begin, begin_handler,
    handle_extension_client_end, welcome.
  run_coroutine.
  destruct (net ws); simpl; repeat split; done.
Qed.

(** *** What a message cannot change *)

Lemma keeps_pending_pop_remove (R : relation bridge) `{!PreOrder R} field setter k :
  (∀ b, R b (setter (Pending.remove k (field b)) b)) →
  keeps R (pending_pop field setter k).
Proof.
  intros Hset net b. unfold pending_pop.
  destruct (hashable k); simpl; [|reflexivity].
  destruct (Pending.lookup k (field b)); simpl; [apply Hset|reflexivity].
Qed.

Lemma pending_remove_sublist k d : sublist (Pending.remove k d) d.
Proof.
  induction d as [|[k' c'] d IH]; simpl; [done|].
  destruct (py_eqb k k'); [by apply sublist_cons|by apply sublist_skip].
Qed.

#[local] Instance only_resolves_preorder : PreOrder only_resolves.
Proof.
  split.
  - intros b. by repeat split.
  - intros b1 b2 b3 (?&?&?&?&?&?) (?&?&?&?&?&?).
    repeat split; try congruence; by etransitivity.
Qed.

#[local] Instance only_tracks_cdp_preorder : PreOrder only_tracks_cdp.
Proof.
  split.
  - intros b. by repeat split.
  - intros b1 b2 b3 (?&?&?&?&?) (?&?&?&?&?). repeat split; congruence.
Qed.

#[local] Instance only_tracks_brop_preorder : PreOrder only_tracks_brop.
Proof.
  split.
  - intros b. repeat split; first [done | reflexivity].
  - intros b1 b2 b3 (?&?&?&?&?) (?&?&?&?&?).
    repeat split; first [congruence | lia].
Qed.

(** The steps of a proof that a coroutine keeps [R], given a tactic for the
    writes to the bridge. *)
Ltac keeps_rel R write :=
  repeat first
    [ apply (keeps_try_except R)
    | apply (keeps_bind R); [|intros ?]
    | apply (keeps_ret R)
    | apply (keeps_lift R)
    | apply (keeps_gets R)
    | apply (keeps_send R)
    | apply (keeps_pending_in R)
    | apply (keeps_pending_setitem R); [intros ? ?; write]
    | apply (keeps_pending_pop_remove R); [intros ?; write]
    | apply (keeps_modify R); [intros ?; write]
    | apply (keeps_gather R), Forall_fmap, Forall_forall;
        intros ? _; apply (keeps_send R)
    | match goal with
      | |- keeps _ (if ?c then _ else _) => destruct c
      | |- keeps _ (match ?x with _ => _ end) => destruct x
      end ].

(** X12: whatever the agent sends, the agent slot, the two sets of clients
    and the counter stay as they are, and the pending dicts can only lose
    entries. *)
Theorem extension_message_only_resolves message net b :
  let b' := final (process_extension_message message net b) in
  extension_client b' = extension_client b
  ∧ cdp_clients b' = cdp_clients b
  ∧ brop_clients b' = brop_clients b
  ∧ message_counter b' = message_counter b
  ∧ sublist (pending_cdp_requests b') (pending_cdp_requests b)
  ∧ sublist (pending_brop_requests b') (pending_brop_requests b).
Proof.
  revert net b. change (keeps only_resolves (process_extension_message message)).
  unfold process_extension_message, broadcast_extension_event,
    broadcast_to_cdp_clients, broadcast_to_brop_clients.
  keeps_rel only_resolves
    ltac:(repeat split; simpl; try done; apply pending_remove_sublist).
Qed.

(** X13: whatever a client sends, the agent slot and the two sets of
    clients stay as they are.  A message on the CDP endpoint can change
    nothing but the CDP pending dict; a message on the BROP endpoint
    nothing but the BROP pending dict and the counter, which does not go
    down. *)
Theorem client_message_only_tracks client message net b :
  let b1 := final (process_cdp_message client message net b) in
  let b2 := final (process_brop_message client message net b) in
  (extension_client b1 = extension_client b
   ∧ cdp_clients b1 = cdp_clients b
   ∧ brop_clients b1 = brop_clients b
   ∧ message_counter b1 = message_counter b
   ∧ pending_brop_requests b1 = pending_brop_requests b)
  ∧ (extension_client b2 = extension_client b
     ∧ cdp_clients b2 = cdp_clients b
     ∧ brop_clients b2 = brop_clients b
     ∧ (message_counter b ≤ message_counter b2)%N
     ∧ pending_cdp_requests b2 = pending_cdp_requests b).
Proof.
  split.
  - revert net b. change (keeps only_tracks_cdp (process_cdp_message client message)).
    unfold process_cdp_message, extension_client_send.
    keeps_rel only_tracks_cdp ltac:(by repeat split).
  - revert net b. change (keeps only_tracks_brop (process_brop_message client message)).
    unfold process_brop_message, extension_client_send, get_next_message_id.
    keeps_rel only_tracks_brop ltac:(repeat split; simpl; try done; lia).
Qed.

(** *** Who is sent what *)

(** X14: a message of a client makes the bridge call [send] at most once:
    on that client when no agent is registered, on the agent otherwise.  No
    other client ever sees a frame because of it. *)
Theorem client_message_recipients client message net b :
  let to_client_or_agent (l : list frame) :=
    l = []
    ∨ (extension_client b = None ∧ ∃ m, l = [(client, m)])
    ∨ (∃ agent m, extension_client b = Some agent ∧ l = [(agent, m)]) in
  to_client_or_agent (sent (process_cdp_message client message net b))
  ∧ to_client_or_agent (sent (process_brop_message client message net b)).
Proof.
  intros to. subst to. cbv beta.
  destruct message as [data|]; [|split; by left].
  destruct data as [| | | | | |d]; try (split; by left).
  split.
  - unfold process_cdp_message. run_coroutine.
    destruct (extension_client b) as [agent|] eqn:Hagent; simpl.
    + destruct (hashable _); simpl; [|by left].
      rewrite Hagent. simpl. right. right. eauto.
    + right. left. eauto.
  - unfold process_brop_message. run_coroutine.
    destruct (Dict.get "command" d) as [[]|]; simpl; try by left.
    all: destruct (extension_client b) as [agent|] eqn:Hagent; simpl;
      [destruct (hashable _); simpl; [|by left];
       rewrite Hagent; simpl; right; right; eauto
      |right; left; eauto].
Qed.

Lemma eq_str_true (j : json) s : eq_str j s = true → j = JStr s.
Proof.
  destruct j; simpl; try done. by intros ->%String.eqb_eq.
Qed.

Lemma default_null_str (o : option json) s :
  default JNull o = JStr s → o = Some (JStr s).
Proof. destruct o; simpl; congruence. Qed.

(** X15: the bridge sends something on a frame of the agent only when the
    frame is a JSON object of type "response" or "event"; a response makes
    it call [send] at most once. *)
Theorem extension_sends_only_on_response_or_event message net b :
  let r := process_extension_message message net b in
  (sent r ≠ [] →
   ∃ d, message = Some (JObj d)
        ∧ (Dict.get "type" d = Some (JStr "response")
           ∨ Dict.get "type" d = Some (JStr "event")))
  ∧ (∀ d, message = Some (JObj d) →
          Dict.get "type" d = Some (JStr "response") →
          (length (sent r) ≤ 1)%nat).
Proof.
  intros r. subst r. split.
  - destruct message as [data|]; [|done].
    destruct data as [| | | | | |d]; try done.
    intros Hsent. exists d. split; [done|].
    destruct (eq_str (default JNull (Dict.get "type" d)) "response") eqn:Hr.
    { left. by apply default_null_str, eq_str_true. }
    destruct (eq_str (default JNull (Dict.get "type" d)) "event") eqn:He.
    { right. by apply default_null_str, eq_str_true. }
    exfalso. apply Hsent.
    unfold process_extension_message. run_coroutine. rewrite Hr, He.
    by destruct (eq_str _ "log").
  - intros d -> Hty.
    unfold process_extension_message. run_coroutine. rewrite Hty. simpl.
    destruct (hashable _); simpl; [|lia].
    unfold Pending.contains.
    destruct (Pending.lookup _ (pending_cdp_requests b)) eqn:Hcdp; simpl.
    { rewrite Hcdp, convert_to_cdp_response_run. simpl. lia. }
    destruct (Pending.lookup _ (pending_brop_requests b)) eqn:Hbrop; simpl;
      rewrite ?Hbrop; simpl; lia.
Qed.

(** *** Ids drawn from the counter *)

Lemma bridge_id_inj i j :
  "bridge_" ++ decimal i = "bridge_" ++ decimal j → i = j.
Proof.
  unfold decimal. simpl. intros [=Heq]. by apply (inj pretty).
Qed.

Lemma get_next_message_id_run net b :
  get_next_message_id net b =
  Result (set_message_counter (message_counter b + 1) b) []
    (Done (JStr ("bridge_" ++ decimal (Z.of_N (message_counter b + 1))))).
Proof. done. Qed.

(** X16: two ids drawn from the counter, with any events between the two
    draws, are different: the second is "bridge_" with a larger number. *)
Theorem generated_ids_distinct es net1 net2 net3 b :
  let r1 := get_next_message_id net1 b in
  let r2 := get_next_message_id net3 (final (run es net2 (final r1))) in
  ∃ i j,
    ending r1 = Done (JStr ("bridge_" ++ decimal i))
    ∧ ending r2 = Done (JStr ("bridge_" ++ decimal j))
    ∧ (i < j)%Z
    ∧ ending r1 ≠ ending r2.
Proof.
  intros r1 r2. subst r1 r2. rewrite !get_next_message_id_run. cbn [final ending].
  set (b1 := set_message_counter (message_counter b + 1) b).
  pose proof (run_counter_le es net2 b1) as Hle. unfold counter_le in Hle.
  change (message_counter b1) with (message_counter b + 1)%N in Hle.
  eexists _, _. split; [reflexivity|]. split; [reflexivity|].
  split; [lia|].
  intros Heq.
  assert (∀ s t : string, @Done json (JStr s) = Done (JStr t) → s = t) as Hstr
    by (by intros s t [= ->]).
  apply Hstr, bridge_id_inj in Heq. lia.
Qed.

(** *** Exceptions stay inside *)

Lemma returns_try_except body : returns (try_except body).
Proof. intros net b. unfold try_except. destruct (body net b). by eexists. Qed.

Lemma returns_modify f : returns (modify f).
Proof. intros net b. by eexists. Qed.

Lemma returns_begin_handler body fin :
  returns fin → returns (begin_handler body fin).
Proof.
  intros Hfin net b. unfold begin_handler.
  destruct (body net b) as [b1 s1 [[]|e]]; simpl; eauto;
    destruct (Hfin net b1) as [a Ha];
    destruct (fin net b1) as [b2 s2 [?|?]]; simpl in *; eauto; done.
Qed.

Lemma returns_bind {A B} (m : M A) (f : A → M B) :
  returns m → (∀ a, returns (f a)) → returns (m ≫= f).
Proof.
  intros Hm Hf net b. unfold mbind, M_bind.
  destruct (Hm net b) as [a Ha].
  destruct (m net b) as [b1 s1 [a'|e]]; simpl in *; [|done].
  destruct (Hf a' net b1) as [x Hx].
  destruct (f a' net b1) as [b2 s2 o]; simpl in *. eauto.
Qed.

Lemma returns_ret {A} (a : A) : returns (mret a).
Proof. intros net b. by eexists. Qed.

Lemma step_returns e : returns (step e).
Proof.
  destruct e; unfold step, handle_extension_client_begin,
    handle_extension_client_message, handle_extension_client_end,
    handle_cdp_client_begin, handle_cdp_client_message, handle_cdp_client_end,
    handle_brop_client_begin, handle_brop_client_message, handle_brop_client_end,
    process_extension_message, process_cdp_message, process_brop_message;
    repeat first
      [ apply returns_try_except
      | apply returns_modify
      | apply returns_ret
      | apply returns_bind; [|intros ?]
      | apply returns_begin_handler ].
Qed.

(** X17: no sequence of events on the three ports ends in an exception:
    what a [send], a lookup or a malformed frame raises is caught in the
    handler of the connection it belongs to, for a message inside the
    [process_*] coroutine, and the run goes on with the next event. *)
Theorem run_never_raises es net b :
  ending (run es net b) = Done tt
  ∧ (∀ e, ending (step e net b) = Done tt).
Proof.
  assert (∀ e net b, ending (step e net b) = Done tt) as Hstep.
  { intros e net0 b0. destruct (step_returns e net0 b0) as [[] H]. done. }
  split; [|by intros e].
  revert b. induction es as [|e es IH]; intros b; simpl; [done|].
  unfold mbind, M_bind. specialize (Hstep e net b).
  destruct (step e net b) as [b1 s1 [[]|?]]; simpl in *; [|done].
  specialize (IH b1). by destruct (run es net b1).
Qed.

(** *** The agent comes back *)

(** X18: the end of an agent connection leaves the pending dicts as they
    are, so a request forwarded to one agent connection can be answered
    over the next one: the reply of the new connection for the pending id
    goes to the client that asked. *)
Theorem pending_survives_agent_reconnect old new now n client reply net b :
  net new = false →
  hashable n = true →
  Pending.lookup n (pending_cdp_requests b) = Some client →
  is_reply_for n reply →
  let b1 := final (step (ExtensionEnd old) net b) in
  let r := run [ExtensionAccept new now;
                ExtensionMessage new (Some (JObj reply))] net b1 in
  extension_client b1 = None
  ∧ pending_cdp_requests b1 = pending_cdp_requests b
  ∧ pending_brop_requests b1 = pending_brop_requests b
  ∧ ∃ cdp_response,
      convert_to_cdp_response (JObj reply) = Done cdp_response
      ∧ sent r = [(new, welcome now); (client, cdp_response)]
      ∧ extension_client (final r) = Some new.
Proof.
  intros Hnew Hhash Hcdp [Hty Hid] b1 r. subst b1 r.
  repeat (split; [done|]).
  set (b2 := set_extension_client (Some new) b).
  destruct (process_extension_message_cdp_reply reply client net b2)
    as (x & Hx & Hrun); rewrite ?Hid; try done.
  exists x. split; [done|].
  unfold run, step, handle_extension_client_begin, begin_handler,
    handle_extension_client_end, handle_extension_client_message, welcome.
  run_coroutine. rewrite Hnew.
  change (set_extension_client (Some new) (set_extension_client None b)) with b2.
  cbn -[process_extension_message]. rewrite Hrun. by simpl.
Qed.

(** *** Failed sends *)

(** X19: what the bridge does with a message does not depend on whether
    its sends succeed: the same [send] calls are made and the same bridge
    is left on any two transports.  A send that raises is not retried and
    nothing is rolled back: the entry of a reply that could not be sent is
    gone, the entry of a request that could not be forwarded stays. *)
Theorem failed_sends_change_nothing client message net net' b :
  process_cdp_message client message net b
  = process_cdp_message client message net' b
  ∧ process_brop_message client message net b
    = process_brop_message client message net' b
  ∧ process_extension_message message net b
    = process_extension_message message net' b.
Proof.
  destruct message as [data|]; [|done].
  destruct data as [| | | | | |d]; try done.
  split; [|split].
  - unfold process_cdp_message. run_coroutine.
    destruct (extension_client b) eqn:Hagent; simpl; [|done].
    destruct (hashable _); simpl; [|done]. by rewrite Hagent.
  - unfold process_brop_message. run_coroutine.
    destruct (Dict.get "command" d) as [[]|]; simpl; try done.
    all: destruct (extension_client b) eqn:Hagent; simpl; [|done].
    all: destruct (hashable _); simpl; [|done].
    all: by rewrite Hagent.
  - destruct (eq_str (default JNull (Dict.get "type" d)) "response") eqn:Hr.
    { apply eq_str_true, default_null_str in Hr.
      unfold process_extension_message. run_coroutine. rewrite Hr. simpl.
      destruct (hashable _); simpl; [|done].
      unfold Pending.contains.
      destruct (Pending.lookup _ (pending_cdp_requests b)) eqn:Hcdp; simpl.
      { rewrite Hcdp, convert_to_cdp_response_run. by simpl. }
      destruct (Pending.lookup _ (pending_brop_requests b)) eqn:Hbrop; simpl;
        rewrite ?Hbrop; by simpl. }
    destruct (eq_str (default JNull (Dict.get "type" d)) "event") eqn:He.
    { apply eq_str_true, default_null_str in He.
      by rewrite !process_extension_message_event,
        !broadcast_extension_event_run. }
    unfold process_extension_message. run_coroutine. rewrite Hr, He.
    by destruct (eq_str _ "log").
Qed.

(** *** Clients come and go *)

(** X20: a client connection that opens and ends with nothing between
    leaves the bridge as it was and is sent nothing, on the BROP endpoint
    and on the CDP endpoint (any path but the discovery paths). *)
Theorem client_connection_round_trip ws path net b :
  (ws ∉ brop_clients b →
   run [BropAccept ws; BropEnd ws] net b = Result b [] (Done tt))
  ∧ (ws ∉ cdp_clients b →
     ¬ discovery_path path →
     run [CdpAccept ws path; CdpEnd ws] net b = Result b [] (Done tt)).
Proof.
  assert (∀ X : gset conn, ws ∉ X → (X ∪ {[ws]}) ∖ {[ws]} = X) as Hset.
  { intros X Hout. apply set_eq. intros x.
    rewrite elem_of_difference, elem_of_union, elem_of_singleton.
    split; [tauto|]. intros Hx. split; [by left|]. by intros ->. }
  split.
  - intros Hout.
    unfold run, step, handle_brop_client_begin, handle_brop_client_end,
      begin_handler.
    run_coroutine. rewrite Hset by done. by destruct b.
  - intros Hout Hpath.
    unfold run, step, handle_cdp_client_begin, handle_cdp_client_end,
      begin_handler, discovery_path in *.
    run_coroutine.
    destruct (String.eqb_spec path "/json/version"); [tauto|].
    destruct (String.eqb_spec path "/json"); [tauto|].
    destruct (String.eqb_spec path "/json/list"); [tauto|].
    simpl. rewrite Hset by done. by destruct b.
Qed.

(** X21: a BROP client (a connection that is not also a CDP client) is
    sent every event of the agent while it is connected, as the original
    object, and none once its connection has ended. *)
Theorem brop_client_gets_events_while_connected ws d net b :
  Dict.get "type" d = Some (JStr "event") →
  ws ∉ cdp_clients b →
  let connected := final (step (BropAccept ws) net b) in
  let gone := final (step (BropEnd ws) net connected) in
  (ws, JObj d) ∈ sent (process_extension_message (Some (JObj d)) net connected)
  ∧ (∀ m, (ws, m) ∉ sent (process_extension_message (Some (JObj d)) net gone)).
Proof.
  intros Hty Hcdp connected gone.
  rewrite !process_extension_message_event, !broadcast_extension_event_run by done.
  cbn [sent]. split.
  - apply elem_of_app. right. apply elem_of_fan_out. split; [|done].
    subst connected. unfold step, handle_brop_client_begin, begin_handler.
    run_coroutine. apply elem_of_union. right. by apply elem_of_singleton.
  - intros m [Hin|Hin]%elem_of_app.
    + destruct (in_strs _ _); [|by apply elem_of_nil in Hin].
      apply elem_of_fan_out in Hin as [Hin _]. by apply Hcdp.
    + apply elem_of_fan_out in Hin as [Hin _].
      subst gone connected.
      unfold step, handle_brop_client_begin, handle_brop_client_end,
        begin_handler in Hin.
      revert Hin. run_coroutine.
      intros [_ Hne]%elem_of_difference. by apply Hne, elem_of_singleton.
Qed.

#[local] Instance same_agent_preorder : PreOrder same_agent.
Proof.
  split.
  - by intros b.
  - intros b1 b2 b3. unfold same_agent. congruence.
Qed.

(** X22: the agent slot changes only when an agent connection is accepted
    or ends: no frame of a client or of the agent, and no connection or
    disconnection of a client, registers or deregisters an agent. *)
Theorem slot_changes_only_with_agent_connections e net b :
  ¬ agent_lifecycle e →
  extension_client (final (step e net b)) = extension_client b.
Proof.
  intros He. revert net b. change (keeps same_agent (step e)).
  destruct e; simpl in He; try tauto;
    unfold step, handle_extension_client_message,
      handle_cdp_client_begin, handle_cdp_client_message, handle_cdp_client_end,
      handle_brop_client_begin, handle_brop_client_message, handle_brop_client_end,
      process_extension_message, process_cdp_message, process_brop_message,
      broadcast_extension_event, broadcast_to_cdp_clients,
      broadcast_to_brop_clients, get_next_message_id, get_browser_tabs,
      extension_client_send;
    repeat first
      [ apply (keeps_begin_handler same_agent)
      | progress keeps_rel same_agent ltac:(done) ].
Qed.

(** *** Edge cases of ids and of [success] *)

(** X23: a CDP request without [id] is tracked under [None], and a
    response of the agent without [id] resolves it: the client gets the
    converted reply with [id] null, and the bridge is as before the
    request. *)
Theorem cdp_request_without_id_round_trip client agent request reply net b :
  extension_client b = Some agent →
  Dict.get "id" request = None →
  Pending.lookup JNull (pending_cdp_requests b) = None →
  Dict.get "type" reply = Some (JStr "response") →
  Dict.get "id" reply = None →
  let r := run [CdpMessage client (Some (JObj request));
                ExtensionMessage agent (Some (JObj reply))] net b in
  ∃ cdp_response,
    convert_to_cdp_response (JObj reply) = Done cdp_response
    ∧ Dict.get "id" (match cdp_response with JObj f => f | _ => [] end) = Some JNull
    ∧ sent r = [(agent, JObj [("type", JStr "cdp_command");
                              ("id", JNull);
                              ("method", default JNull (Dict.get "method" request));
                              ("params", default (JObj []) (Dict.get "params" request))]);
                (client, cdp_response)]
    ∧ final r = b.
Proof.
  intros Hagent Hid Hnew Hty Hidr r. subst r.
  set (b1 := set_pending_cdp_requests
               (Pending.store JNull client (pending_cdp_requests b)) b).
  destruct (process_extension_message_cdp_reply reply client net b1)
    as (x & Hx & Hrun); rewrite ?Hidr; simpl; try done.
  { by apply pending_lookup_store_new. }
  exists x. split; [done|]. split.
  { rewrite convert_to_cdp_response_run, Hidr in Hx.
    injection Hx as <-. by destruct (truthy _). }
  unfold run, step, handle_cdp_client_message, handle_extension_client_message,
    mbind, M_bind, mret, M_ret.
  rewrite (process_cdp_message_forward _ _ agent) by (by rewrite ?Hid).
  rewrite Hid. change (default JNull None) with JNull. fold b1.
  rewrite Hrun, Hidr. change (default JNull None) with JNull.
  split; [done|].
  subst b1. simpl. rewrite pending_remove_store_new by done. by destruct b.
Qed.

(** X24: the conversion of a response follows the truth value that Python
    gives to [success], whatever its type: a non-zero number, a non-empty
    string, list or object count as success, and [null], zero, the empty
    string, list or object as failure, with code -32000 and [str(error)] as
    message. *)
Theorem conversion_follows_truthiness d success :
  Dict.get "success" d = Some success →
  (truthy success = true →
   convert_to_cdp_response (JObj d)
   = Done (JObj [("id", default JNull (Dict.get "id" d));
                 ("result", default (JObj []) (Dict.get "result" d))]))
  ∧ (truthy success = false →
     convert_to_cdp_response (JObj d)
     = Done (JObj [("id", default JNull (Dict.get "id" d));
                   ("error",
                    JObj [("code", JInt (-32000));
                          ("message",
                           JStr (py_str (default (JStr "Unknown error")
                                           (Dict.get "error" d))))])])).
Proof.
  intros Hs. rewrite convert_to_cdp_response_run, Hs. simpl.
  split; by intros ->.
Qed.

End Bridge.

(** ** The theorems on sample data *)

(** [both_pending] is where [sample_script] takes the bridge. *)
Lemma sample_script_reaches_both_pending :
  final (run no_repr sample_script all_up init) = both_pending.
Proof. vm_compute. reflexivity. Qed.

(** A BROP-shaped request with id 7 on either endpoint of the bridge as
    [__init__] leaves it. *)
Lemma agent_absent_error_reply_witness :
  extension_client init = None
  ∧ command_is_dict sample_brop_request
  ∧ sent (process_cdp_message 1 (Some (JObj sample_brop_request)) all_up init)
    = [(1, JObj [("id", JInt 7);
                 ("error", JObj [("code", JInt (-32000));
                                 ("message", JStr "Chrome extension not connected")])])]
  ∧ sent (process_brop_message 1 (Some (JObj sample_brop_request)) all_up init)
    = [(1, JObj [("id", JInt 7);
                 ("success", JBool false);
                 ("error", JStr "Chrome extension not connected")])]
  ∧ pending_cdp_requests
      (final (process_brop_message 1 (Some (JObj sample_brop_request)) all_up init)) = []
  ∧ pending_brop_requests
      (final (process_brop_message 1 (Some (JObj sample_brop_request)) all_up init)) = [].
Proof.
  destruct (agent_absent_error_reply 1 sample_brop_request all_up init eq_refl)
    as [[Hcdp _] Hbrop].
  destruct (Hbrop I) as (Hsent & _ & _ & Hp1 & Hp2).
  repeat split; assumption.
Defined.

(** A successful reply, a failed one and an object without [success]. *)
Lemma cdp_response_conversion_witness :
  Dict.get "success" sample_navigate_reply = Some (JBool true)
  ∧ convert_to_cdp_response no_repr (JObj sample_navigate_reply)
    = Done (JObj [("id", JInt 7); ("result", JObj [("frameId", JStr "f1")])])
  ∧ Dict.get "success" sample_failed_reply = Some (JBool false)
  ∧ convert_to_cdp_response no_repr (JObj sample_failed_reply)
    = Done (JObj [("id", JInt 7);
                  ("error", JObj [("code", JInt (-32000));
                                  ("message", JStr "No such tab")])])
  ∧ Dict.get "success" sample_ping = None
  ∧ convert_to_cdp_response no_repr (JObj sample_ping)
    = Done (JObj [("id", JNull);
                  ("error", JObj [("code", JInt (-32000));
                                  ("message", JStr "Unknown error")])])
  ∧ Pending.lookup (JInt 7) (pending_cdp_requests both_pending) = Some 1
  ∧ ∃ cdp_response,
      convert_to_cdp_response no_repr (JObj sample_navigate_reply) = Done cdp_response
      ∧ sent (process_extension_message no_repr (Some (JObj sample_navigate_reply))
                all_up both_pending)
        = [(1, cdp_response)].
Proof.
  split; [reflexivity|].
  split; [exact (proj1 (cdp_response_conversion no_repr sample_navigate_reply) eq_refl)|].
  split; [reflexivity|].
  split; [exact (proj1 (proj2 (cdp_response_conversion no_repr sample_failed_reply))
                   (or_introl eq_refl))|].
  split; [reflexivity|].
  split; [exact (proj1 (proj2 (cdp_response_conversion no_repr sample_ping))
                   (or_intror eq_refl))|].
  split; [reflexivity|].
  exact (proj2 (proj2 (proj2 (cdp_response_conversion no_repr sample_navigate_reply)))
           all_up both_pending 1 eq_refl eq_refl eq_refl).
Defined.

(** The reply for id 7 when only the BROP client 2 waits for it. *)
Lemma brop_reply_forwarded_unmodified_witness :
  Dict.get "type" sample_title_reply = Some (JStr "response")
  ∧ hashable (JInt 7) = true
  ∧ Pending.lookup (JInt 7) (pending_cdp_requests brop_only_pending) = None
  ∧ Pending.lookup (JInt 7) (pending_brop_requests brop_only_pending) = Some 2
  ∧ sent (process_extension_message no_repr (Some (JObj sample_title_reply))
            all_up brop_only_pending)
    = [(2, JObj sample_title_reply)].
Proof.
  repeat (split; [reflexivity|]).
  exact (proj1 (brop_reply_forwarded_unmodified no_repr sample_title_reply 2 all_up
                  brop_only_pending eq_refl eq_refl eq_refl eq_refl)).
Defined.

(** A console event and a tab event with CDP clients 1 and 3 and BROP
    client 2 connected. *)
Lemma event_fan_out_witness :
  Dict.get "type" sample_event = Some (JStr "event")
  ∧ Dict.get "event_type" sample_event = Some (JStr "console")
  ∧ "console" ∈ cdp_event_kinds
  ∧ (∀ c, c ∈ cdp_clients both_pending →
       (c, JObj [("method", JStr "Runtime.console");
                 ("params", JObj [("text", JStr "hi")])])
       ∈ sent (process_extension_message no_repr (Some (JObj sample_event))
                 all_up both_pending))
  ∧ (∀ c, c ∈ brop_clients both_pending →
       (c, JObj sample_event)
       ∈ sent (process_extension_message no_repr (Some (JObj sample_event))
                 all_up both_pending))
  ∧ Dict.get "type" sample_tab_event = Some (JStr "event")
  ∧ (∀ kind, Dict.get "event_type" sample_tab_event = Some (JStr kind) →
             kind ∉ cdp_event_kinds)
  ∧ sent (process_extension_message no_repr (Some (JObj sample_tab_event))
            all_up both_pending)
    = fan_out (brop_clients both_pending) (JObj sample_tab_event).
Proof.
  assert ("console" ∈ cdp_event_kinds) as Hin by (left).
  assert (∀ kind, Dict.get "event_type" sample_tab_event = Some (JStr kind) →
                  kind ∉ cdp_event_kinds) as Hout.
  { intros kind [= <-] Hk.
    apply list_elem_of_In in Hk. simpl in Hk.
    destruct Hk as [Hk|[Hk|[Hk|[]]]]; discriminate Hk. }
  destruct (event_fan_out no_repr sample_event all_up both_pending eq_refl)
    as (_ & Hallow & _).
  destruct (Hallow "console" eq_refl Hin) as (_ & Hcdp & Hbrop & _).
  destruct (event_fan_out no_repr sample_tab_event all_up both_pending eq_refl)
    as (_ & _ & Hother).
  destruct (Hother Hout) as (Hsent & _).
  repeat (split; [first [reflexivity | assumption]|]).
  assumption.
Defined.

(** A broadcast to the CDP clients 1 and 3 when the transport of 3 raises. *)
Lemma broadcast_failures_isolated_witness :
  1 ∈ cdp_clients both_pending
  ∧ only_3_down 1 = false
  ∧ (1, JObj sample_ping)
    ∈ delivered only_3_down
        (sent (broadcast_to_cdp_clients (JObj sample_ping) only_3_down both_pending))
  ∧ 3 ∈ cdp_clients both_pending
  ∧ (∀ c, c ∈ cdp_clients both_pending → only_3_down c = true ↔ c = 3)
  ∧ length (delivered only_3_down
              (sent (broadcast_to_cdp_clients (JObj sample_ping) only_3_down
                       both_pending)))
    = size (cdp_clients both_pending) - 1.
Proof.
  assert (1 ∈ cdp_clients both_pending) as H1
    by (apply elem_of_union; left; apply elem_of_singleton; reflexivity).
  assert (3 ∈ cdp_clients both_pending) as H3
    by (apply elem_of_union; right; apply elem_of_singleton; reflexivity).
  assert (∀ c, c ∈ cdp_clients both_pending → only_3_down c = true ↔ c = 3) as Hk.
  { intros c _. unfold only_3_down. apply Nat.eqb_eq. }
  destruct (broadcast_failures_isolated no_repr (JObj sample_ping) only_3_down
              both_pending)
    as ((_ & _ & Hdel & Hcount & _) & _).
  split; [exact H1|]. split; [reflexivity|].
  split; [exact (Hdel 1 H1 eq_refl)|].
  split; [exact H3|]. split; [exact Hk|].
  exact (Hcount 3 H3 Hk).
Defined.

(** A BROP request without id, when the counter is at 1. *)
Lemma brop_forward_adds_envelope_witness :
  extension_client both_pending = Some 9
  ∧ command_is_dict sample_brop_request_without_id
  ∧ hashable (brop_message_id sample_brop_request_without_id both_pending) = true
  ∧ ∃ forwarded,
      sent (process_brop_message 2 (Some (JObj sample_brop_request_without_id))
              all_up both_pending)
      = [(9, JObj forwarded)]
      ∧ Dict.get "type" forwarded = Some (JStr "brop_command")
      ∧ Dict.get "id" forwarded = Some (JStr "bridge_2")
      ∧ Dict.get "command" forwarded = Some (JObj [("type", JStr "get_title")]).
Proof.
  split; [reflexivity|]. split; [exact I|]. split; [reflexivity|].
  destruct (brop_forward_adds_envelope no_repr 2 sample_brop_request_without_id 9 all_up
              both_pending eq_refl I eq_refl)
    as (forwarded & Hsent & _ & Hty & Hid & Hcmd & _).
  exists forwarded. repeat split; assumption.
Defined.

(** Agent 8 connects, agent 9 connects, the connection of agent 8 ends.
    And: agent 9 holds the slot when connection 3, whose transport raises,
    connects to the agent endpoint. *)
Lemma stale_agent_end_clears_slot_witness :
  all_up 9 = false
  ∧ extension_client
      (final (run no_repr [ExtensionAccept 8 (S754_zero false);
                           ExtensionAccept 9 (S754_zero false)] all_up init))
    = Some 9
  ∧ extension_client
      (final (step no_repr (ExtensionEnd 8) all_up
                (final (run no_repr [ExtensionAccept 8 (S754_zero false);
                                     ExtensionAccept 9 (S754_zero false)]
                          all_up init))))
    = None
  ∧ only_3_down 9 = false
  ∧ only_3_down 3 = true
  ∧ extension_client both_pending = Some 9
  ∧ ending (handle_extension_client_begin 3 (S754_zero false) only_3_down both_pending)
    = Done false
  ∧ extension_client
      (final (handle_extension_client_begin 3 (S754_zero false) only_3_down
                both_pending))
    = None.
Proof.
  destruct (stale_agent_end_clears_slot no_repr 8 9 (S754_zero false) (S754_zero false)
              all_up init eq_refl) as (H1 & H2 & _).
  destruct (stale_agent_end_clears_slot no_repr 8 9 (S754_zero false) (S754_zero false)
              only_3_down init eq_refl) as (_ & _ & _ & _ & _ & Herr).
  destruct (Herr both_pending 3 (S754_zero false) eq_refl) as (Hend & Hslot & _).
  split; [reflexivity|]. split; [exact H1|]. split; [exact H2|].
  split; [reflexivity|]. split; [reflexivity|]. split; [reflexivity|].
  split; [exact Hend|exact Hslot].
Defined.

(** An extension message of type "ping". *)
Lemma other_extension_message_discarded_witness :
  Dict.get "type" sample_ping ≠ Some (JStr "response")
  ∧ Dict.get "type" sample_ping ≠ Some (JStr "event")
  ∧ Dict.get "type" sample_ping ≠ Some (JStr "log")
  ∧ process_extension_message no_repr (Some (JObj sample_ping)) all_up both_pending
    = Result both_pending [] (Done tt).
Proof.
  assert (Dict.get "type" sample_ping ≠ Some (JStr "response")) as Hr
    by (intros H; discriminate H).
  assert (Dict.get "type" sample_ping ≠ Some (JStr "event")) as He
    by (intros H; discriminate H).
  assert (Dict.get "type" sample_ping ≠ Some (JStr "log")) as Hl
    by (intros H; discriminate H).
  split; [exact Hr|]. split; [exact He|]. split; [exact Hl|].
  exact (proj1 (other_extension_message_discarded no_repr sample_ping all_up
                  both_pending Hr He Hl)).
Defined.

(** Client 3 sends a CDP request with the id 7 that client 1 waits for. *)
Lemma second_request_replaces_origin_witness :
  extension_client both_pending = Some 9
  ∧ Pending.lookup (JInt 7) (pending_cdp_requests both_pending) = Some 1
  ∧ Pending.lookup (JInt 7)
      (pending_cdp_requests
         (final (process_cdp_message 3 (Some (JObj sample_cdp_request)) all_up
                   both_pending)))
    = Some 3.
Proof.
  split; [reflexivity|]. split; [reflexivity|].
  exact (proj1 (proj1 (second_request_replaces_origin 1 3 sample_cdp_request 9 all_up
                         both_pending eq_refl) eq_refl)).
Defined.

(** Two replies for id 7 while clients 1 (CDP) and 2 (BROP) wait for it. *)
Lemma replies_resolved_cdp_first_witness :
  hashable (JInt 7) = true
  ∧ Pending.lookup (JInt 7) (pending_cdp_requests both_pending) = Some 1
  ∧ Pending.lookup (JInt 7)
      (Pending.remove (JInt 7) (pending_cdp_requests both_pending)) = None
  ∧ Pending.lookup (JInt 7) (pending_brop_requests both_pending) = Some 2
  ∧ is_reply_for (JInt 7) sample_title_reply
  ∧ is_reply_for (JInt 7) sample_navigate_reply
  ∧ ∃ cdp_response,
      convert_to_cdp_response no_repr (JObj sample_title_reply) = Done cdp_response
      ∧ sent (run no_repr
                [ExtensionMessage 9 (Some (JObj sample_title_reply));
                 ExtensionMessage 9 (Some (JObj sample_navigate_reply))]
                all_up both_pending)
        = [(1, cdp_response); (2, JObj sample_navigate_reply)].
Proof.
  repeat (split; [first [reflexivity | split; reflexivity]|]).
  destruct (replies_resolved_cdp_first no_repr all_up both_pending 9 (JInt 7) 1 2
              sample_title_reply sample_navigate_reply
              eq_refl eq_refl eq_refl eq_refl
              (conj eq_refl eq_refl) (conj eq_refl eq_refl))
    as (cdp_response & Hconv & Hsent & _).
  exists cdp_response. split; assumption.
Defined.

(** C3 does not hold as worded: the agent answers the BROP request of client 2
    before the CDP request of client 1, both with id 7; its answer to the
    BROP request is sent to the CDP client, in CDP shape, and its answer to
    the CDP request to the BROP client. *)
Lemma brop_reply_reaches_cdp_client :
  Pending.lookup (JInt 7) (pending_cdp_requests both_pending) = Some 1
  ∧ Pending.lookup (JInt 7) (pending_brop_requests both_pending) = Some 2
  ∧ sent (run no_repr
            [ExtensionMessage 9 (Some (JObj sample_title_reply));
             ExtensionMessage 9 (Some (JObj sample_navigate_reply))]
            all_up both_pending)
    = [(1, JObj [("id", JInt 7); ("result", JObj [("title", JStr "T")])]);
       (2, JObj sample_navigate_reply)]
  ∧ ¬ replies_reach_own_clients no_repr.
Proof.
  split; [reflexivity|]. split; [reflexivity|]. split; [reflexivity|].
  intros Hclaim.
  destruct (Hclaim all_up both_pending 9 (JInt 7) 1 2
              sample_navigate_reply sample_title_reply
              (JObj [("id", JInt 7); ("result", JObj [("frameId", JStr "f1")])])
              eq_refl eq_refl eq_refl eq_refl
              (conj eq_refl eq_refl) (conj eq_refl eq_refl) eq_refl)
    as [_ Hbrop_first].
  vm_compute in Hbrop_first. discriminate Hbrop_first.
Qed.

(** C4 does not hold as worded: client 1 has a CDP request with id 7 pending and
    client 3 sends a CDP request with id 7; the entry then names client 3.
    The same on the BROP side with clients 2 and 4. *)
Lemma second_request_takes_over_entry :
  Pending.lookup (JInt 7) (pending_cdp_requests both_pending) = Some 1
  ∧ Pending.lookup (JInt 7)
      (pending_cdp_requests
         (final (process_cdp_message 3 (Some (JObj sample_cdp_request)) all_up
                   both_pending)))
    = Some 3
  ∧ Pending.lookup (JInt 7) (pending_brop_requests both_pending) = Some 2
  ∧ Pending.lookup (JInt 7)
      (pending_brop_requests
         (final (process_brop_message 4 (Some (JObj sample_brop_request)) all_up
                   both_pending)))
    = Some 4
  ∧ ¬ cdp_track_keeps_first_origin
  ∧ ¬ brop_track_keeps_first_origin.
Proof.
  repeat (split; [reflexivity|]). split.
  - intros Hclaim.
    pose proof (Hclaim all_up both_pending 9 1 3 sample_cdp_request eq_refl eq_refl)
      as H.
    vm_compute in H. discriminate H.
  - intros Hclaim.
    pose proof (Hclaim all_up both_pending 9 2 4 sample_brop_request eq_refl I eq_refl)
      as H.
    vm_compute in H. discriminate H.
Qed.

(** ** The further properties on sample data *)

Lemma not_in_sample_sets :
  (5 ∉ brop_clients both_pending) ∧ (5 ∉ cdp_clients both_pending).
Proof.
  split.
  - apply (bool_decide_unpack (5 ∉ brop_clients both_pending)). vm_compute. exact I.
  - apply (bool_decide_unpack (5 ∉ cdp_clients both_pending)). vm_compute. exact I.
Defined.

(** Client 3 sends a CDP request with id 8 while an agent is there. *)
Lemma cdp_request_forwarded_witness :
  extension_client both_pending = Some 9
  ∧ hashable (JInt 8) = true
  ∧ sent (process_cdp_message 3 (Some (JObj sample_cdp_request_8)) all_up both_pending)
    = [(9, JObj [("type", JStr "cdp_command"); ("id", JInt 8);
                 ("method", JStr "Page.reload"); ("params", JObj [])])]
  ∧ Pending.lookup (JInt 8)
      (pending_cdp_requests
         (final (process_cdp_message 3 (Some (JObj sample_cdp_request_8)) all_up
                   both_pending)))
    = Some 3.
Proof.
  destruct (cdp_request_forwarded 3 sample_cdp_request_8 9 all_up both_pending
              eq_refl eq_refl) as (Hsent & _ & Hlookup).
  split; [reflexivity|]. split; [reflexivity|].
  split; [exact Hsent|exact Hlookup].
Defined.

(** A reply for id 8, which nobody waits for. *)
Lemma unknown_reply_dropped_witness :
  Dict.get "type" sample_reply_8 = Some (JStr "response")
  ∧ Pending.lookup (JInt 8) (pending_cdp_requests both_pending) = None
  ∧ Pending.lookup (JInt 8) (pending_brop_requests both_pending) = None
  ∧ process_extension_message no_repr (Some (JObj sample_reply_8)) all_up both_pending
    = Result both_pending [] (Done tt).
Proof.
  repeat (split; [reflexivity|]).
  exact (unknown_reply_dropped no_repr sample_reply_8 all_up both_pending eq_refl
           (or_intror (conj eq_refl eq_refl))).
Defined.

(** A frame that holds a JSON array. *)
Lemma malformed_client_frame_dropped_witness :
  (∀ d, Some (JArr [JInt 1]) ≠ Some (JObj d))
  ∧ process_cdp_message 1 (Some (JArr [JInt 1])) all_up init = Result init [] (Done tt)
  ∧ process_brop_message 1 (Some (JArr [JInt 1])) all_up init = Result init [] (Done tt).
Proof.
  assert (∀ d, Some (JArr [JInt 1]) ≠ Some (JObj d)) as Hm
    by (intros d H; discriminate H).
  split; [exact Hm|].
  exact (malformed_client_frame_dropped 1 (Some (JArr [JInt 1])) all_up init Hm).
Defined.

(** A BROP request whose command is a string, with no agent. *)
Lemma brop_command_not_object_dropped_witness :
  ¬ command_is_dict sample_brop_request_string_command
  ∧ process_brop_message 2 (Some (JObj sample_brop_request_string_command)) all_up init
    = Result init [] (Done tt).
Proof.
  assert (¬ command_is_dict sample_brop_request_string_command) as Hc
    by (intros H; exact H).
  split; [exact Hc|].
  exact (brop_command_not_object_dropped 2 sample_brop_request_string_command
           all_up init Hc).
Defined.

(** A CDP request whose id is the list [[7]]. *)
Lemma unhashable_id_request_lost_witness :
  extension_client both_pending = Some 9
  ∧ hashable (JArr [JInt 7]) = false
  ∧ process_cdp_message 1 (Some (JObj sample_cdp_request_list_id)) all_up both_pending
    = Result both_pending [] (Done tt).
Proof.
  split; [reflexivity|]. split; [reflexivity|].
  exact (proj1 (unhashable_id_request_lost 1 sample_cdp_request_list_id 9 all_up
                  both_pending eq_refl eq_refl)).
Defined.

(** Client 3 asks with id 8 and the agent answers. *)
Lemma cdp_round_trip_witness :
  extension_client both_pending = Some 9
  ∧ Dict.get "id" sample_cdp_request_8 = Some (JInt 8)
  ∧ py_eqb (JInt 8) (JInt 8) = true
  ∧ Pending.lookup (JInt 8) (pending_cdp_requests both_pending) = None
  ∧ is_reply_for (JInt 8) sample_reply_8
  ∧ final (run no_repr [CdpMessage 3 (Some (JObj sample_cdp_request_8));
                        ExtensionMessage 9 (Some (JObj sample_reply_8))]
             all_up both_pending)
    = both_pending.
Proof.
  destruct (cdp_round_trip no_repr 3 9 sample_cdp_request_8 sample_reply_8 (JInt 8)
              all_up both_pending eq_refl eq_refl eq_refl eq_refl
              (conj eq_refl eq_refl)) as (x & _ & _ & Hfinal).
  repeat (split; [first [reflexivity | split; reflexivity]|]).
  exact Hfinal.
Defined.

(** Client 2 asks with id 8 on the BROP endpoint and the agent answers. *)
Lemma brop_round_trip_witness :
  extension_client both_pending = Some 9
  ∧ command_is_dict sample_brop_request_8
  ∧ Dict.get "id" sample_brop_request_8 = Some (JInt 8)
  ∧ py_eqb (JInt 8) (JInt 8) = true
  ∧ Pending.lookup (JInt 8) (pending_cdp_requests both_pending) = None
  ∧ Pending.lookup (JInt 8) (pending_brop_requests both_pending) = None
  ∧ is_reply_for (JInt 8) sample_reply_8
  ∧ sent (run no_repr [BropMessage 2 (Some (JObj sample_brop_request_8));
                       ExtensionMessage 9 (Some (JObj sample_reply_8))]
            all_up both_pending)
    = [(9, JObj (Dict.set "type" (JStr "brop_command")
                   (Dict.set "id" (JInt 8) sample_brop_request_8)));
       (2, JObj sample_reply_8)].
Proof.
  split; [reflexivity|]. split; [exact I|].
  repeat (split; [first [reflexivity | split; reflexivity]|]).
  exact (proj1 (brop_round_trip no_repr 2 9 sample_brop_request_8 sample_reply_8
                  (JInt 8) all_up both_pending eq_refl I eq_refl eq_refl eq_refl
                  eq_refl (conj eq_refl eq_refl))).
Defined.

(** Two replies for id 7 while only the CDP client 1 waits for it. *)
Lemma duplicate_reply_dropped_witness :
  hashable (JInt 7) = true
  ∧ Pending.lookup (JInt 7) (pending_cdp_requests cdp_only_pending) = Some 1
  ∧ Pending.lookup (JInt 7)
      (Pending.remove (JInt 7) (pending_cdp_requests cdp_only_pending)) = None
  ∧ Pending.lookup (JInt 7) (pending_brop_requests cdp_only_pending) = None
  ∧ is_reply_for (JInt 7) sample_navigate_reply
  ∧ is_reply_for (JInt 7) sample_title_reply
  ∧ sent (process_extension_message no_repr (Some (JObj sample_title_reply)) all_up
            (final (process_extension_message no_repr
                      (Some (JObj sample_navigate_reply)) all_up cdp_only_pending)))
    = [].
Proof.
  repeat (split; [first [reflexivity | split; reflexivity]|]).
  exact (proj1 (proj2 (duplicate_reply_dropped no_repr (JInt 7) 1
                         sample_navigate_reply sample_title_reply all_up
                         cdp_only_pending eq_refl eq_refl eq_refl eq_refl
                         (conj eq_refl eq_refl) (conj eq_refl eq_refl)))).
Defined.

(** The connection of client 1 ends, then the reply for its request comes;
    the same for the BROP client 2. *)
Lemma reply_after_client_disconnect_witness :
  hashable (JInt 7) = true
  ∧ is_reply_for (JInt 7) sample_navigate_reply
  ∧ Pending.lookup (JInt 7) (pending_cdp_requests both_pending) = Some 1
  ∧ (∃ cdp_response,
       sent (run no_repr [CdpEnd 1; ExtensionMessage 9 (Some (JObj sample_navigate_reply))]
               all_up both_pending)
       = [(1, cdp_response)])
  ∧ Pending.lookup (JInt 7) (pending_cdp_requests brop_only_pending) = None
  ∧ Pending.lookup (JInt 7) (pending_brop_requests brop_only_pending) = Some 2
  ∧ sent (run no_repr [BropEnd 2; ExtensionMessage 9 (Some (JObj sample_navigate_reply))]
            all_up brop_only_pending)
    = [(2, JObj sample_navigate_reply)].
Proof.
  destruct (proj1 (reply_after_client_disconnect no_repr 9 (JInt 7) 1
                     sample_navigate_reply all_up both_pending eq_refl
                     (conj eq_refl eq_refl)) eq_refl)
    as (x & _ & Hsent & _).
  destruct (proj2 (reply_after_client_disconnect no_repr 9 (JInt 7) 2
                     sample_navigate_reply all_up brop_only_pending eq_refl
                     (conj eq_refl eq_refl)) eq_refl eq_refl)
    as (Hsent2 & _).
  split; [reflexivity|]. split; [split; reflexivity|]. split; [reflexivity|].
  split; [exists x; exact Hsent|].
  split; [reflexivity|]. split; [reflexivity|exact Hsent2].
Defined.

(** Connection 5 asks for the list of tabs; connection 6 opens a session. *)
Lemma cdp_discovery_not_registered_witness :
  discovery_path "/json/list"
  ∧ ending (handle_cdp_client_begin 5 "/json/list" all_up both_pending) = Done false
  ∧ (5 ∉ cdp_clients (final (handle_cdp_client_begin 5 "/json/list" all_up both_pending)))
  ∧ ¬ discovery_path "/devtools/browser"
  ∧ 6 ∈ cdp_clients
          (final (handle_cdp_client_begin 6 "/devtools/browser" all_up both_pending)).
Proof.
  assert (discovery_path "/json/list") as Hd by (right; right; reflexivity).
  assert (¬ discovery_path "/devtools/browser") as Hn
    by (intros [H|[H|H]]; discriminate H).
  destruct (proj1 (cdp_discovery_not_registered 5 "/json/list" all_up both_pending) Hd)
    as (Hend & _ & _ & Hout).
  destruct (proj2 (cdp_discovery_not_registered 6 "/devtools/browser" all_up
                     both_pending) Hn)
    as (_ & _ & _ & Hin).
  split; [exact Hd|]. split; [exact Hend|]. split; [exact Hout|].
  split; [exact Hn|exact Hin].
Defined.

(** Agent 10 connects while agent 9 holds the slot. *)
Lemma agent_accept_takes_slot_witness :
  all_up 10 = false
  ∧ extension_client
      (final (handle_extension_client_begin 10 (S754_zero false) all_up both_pending))
    = Some 10
  ∧ only_3_down 3 = true
  ∧ extension_client
      (final (handle_extension_client_begin 3 (S754_zero false) only_3_down
                both_pending))
    = None.
Proof.
  destruct (agent_accept_takes_slot 10 (S754_zero false) all_up both_pending)
    as (_ & Hup & _).
  destruct (agent_accept_takes_slot 3 (S754_zero false) only_3_down both_pending)
    as (_ & _ & Hdown).
  destruct (Hup eq_refl) as [_ H1]. destruct (Hdown eq_refl) as [_ H2].
  split; [reflexivity|]. split; [rewrite H1; reflexivity|].
  split; [reflexivity|]. rewrite H2; reflexivity.
Defined.

(** A console event makes the bridge send; it is an event. *)
Lemma extension_sends_only_on_response_or_event_witness :
  sent (process_extension_message no_repr (Some (JObj sample_event)) all_up both_pending)
    ≠ []
  ∧ ∃ d, Some (JObj sample_event) = Some (JObj d)
         ∧ (Dict.get "type" d = Some (JStr "response")
            ∨ Dict.get "type" d = Some (JStr "event")).
Proof.
  assert (sent (process_extension_message no_repr (Some (JObj sample_event)) all_up
                  both_pending) ≠ []) as Hsent.
  { vm_compute. intros H; discriminate H. }
  split; [exact Hsent|].
  exact (proj1 (extension_sends_only_on_response_or_event no_repr
                  (Some (JObj sample_event)) all_up both_pending) Hsent).
Defined.

(** Agent 9 goes, agent 10 comes and answers the request of client 1. *)
Lemma pending_survives_agent_reconnect_witness :
  all_up 10 = false
  ∧ hashable (JInt 7) = true
  ∧ Pending.lookup (JInt 7) (pending_cdp_requests both_pending) = Some 1
  ∧ is_reply_for (JInt 7) sample_navigate_reply
  ∧ ∃ cdp_response,
      sent (run no_repr [ExtensionAccept 10 (S754_zero false);
                         ExtensionMessage 10 (Some (JObj sample_navigate_reply))]
              all_up (final (step no_repr (ExtensionEnd 9) all_up both_pending)))
      = [(10, welcome (S754_zero false)); (1, cdp_response)].
Proof.
  destruct (pending_survives_agent_reconnect no_repr 9 10 (S754_zero false) (JInt 7) 1
              sample_navigate_reply all_up both_pending eq_refl eq_refl eq_refl
              (conj eq_refl eq_refl))
    as (_ & _ & _ & x & _ & Hsent & _).
  split; [reflexivity|]. split; [reflexivity|]. split; [reflexivity|].
  split; [split; reflexivity|]. exists x. exact Hsent.
Defined.

(** Connection 5 opens and ends on each client endpoint. *)
Lemma client_connection_round_trip_witness :
  (5 ∉ brop_clients both_pending)
  ∧ run no_repr [BropAccept 5; BropEnd 5] all_up both_pending
    = Result both_pending [] (Done tt)
  ∧ (5 ∉ cdp_clients both_pending)
  ∧ ¬ discovery_path "/devtools/browser"
  ∧ run no_repr [CdpAccept 5 "/devtools/browser"; CdpEnd 5] all_up both_pending
    = Result both_pending [] (Done tt).
Proof.
  assert (¬ discovery_path "/devtools/browser") as Hn
    by (intros [H|[H|H]]; discriminate H).
  destruct not_in_sample_sets as [Hb Hc].
  destruct (client_connection_round_trip no_repr 5 "/devtools/browser" all_up
              both_pending) as [Hbrop Hcdp].
  split; [exact Hb|]. split; [exact (Hbrop Hb)|].
  split; [exact Hc|]. split; [exact Hn|exact (Hcdp Hc Hn)].
Defined.

(** Connection 5 joins the BROP clients, hears a console event, and leaves. *)
Lemma brop_client_gets_events_while_connected_witness :
  Dict.get "type" sample_event = Some (JStr "event")
  ∧ (5 ∉ cdp_clients both_pending)
  ∧ (5, JObj sample_event)
    ∈ sent (process_extension_message no_repr (Some (JObj sample_event)) all_up
              (final (step no_repr (BropAccept 5) all_up both_pending))).
Proof.
  destruct not_in_sample_sets as [_ Hc].
  split; [reflexivity|]. split; [exact Hc|].
  exact (proj1 (brop_client_gets_events_while_connected no_repr 5 sample_event all_up
                  both_pending eq_refl Hc)).
Defined.

(** A CDP request leaves the agent slot alone. *)
Lemma slot_changes_only_with_agent_connections_witness :
  ¬ agent_lifecycle (CdpMessage 1 (Some (JObj sample_cdp_request)))
  ∧ extension_client
      (final (step no_repr (CdpMessage 1 (Some (JObj sample_cdp_request))) all_up
                both_pending))
    = Some 9.
Proof.
  assert (¬ agent_lifecycle (CdpMessage 1 (Some (JObj sample_cdp_request)))) as He
    by (intros H; exact H).
  split; [exact He|].
  exact (slot_changes_only_with_agent_connections no_repr
           (CdpMessage 1 (Some (JObj sample_cdp_request))) all_up both_pending He).
Defined.

(** A request and a reply that both lack [id]. *)
Lemma cdp_request_without_id_round_trip_witness :
  extension_client both_pending = Some 9
  ∧ Dict.get "id" sample_cdp_request_without_id = None
  ∧ Pending.lookup JNull (pending_cdp_requests both_pending) = None
  ∧ Dict.get "type" sample_reply_without_id = Some (JStr "response")
  ∧ Dict.get "id" sample_reply_without_id = None
  ∧ ∃ cdp_response,
      sent (run no_repr [CdpMessage 3 (Some (JObj sample_cdp_request_without_id));
                         ExtensionMessage 9 (Some (JObj sample_reply_without_id))]
              all_up both_pending)
      = [(9, JObj [("type", JStr "cdp_command"); ("id", JNull);
                   ("method", JStr "Page.reload"); ("params", JObj [])]);
         (3, cdp_response)].
Proof.
  destruct (cdp_request_without_id_round_trip no_repr 3 9 sample_cdp_request_without_id
              sample_reply_without_id all_up both_pending
              eq_refl eq_refl eq_refl eq_refl eq_refl)
    as (x & _ & _ & Hsent & _).
  repeat (split; [reflexivity|]). exists x. exact Hsent.
Defined.

(** [success] 1 is a success; [success] 0 with [error] null is a failure
    with the message "None". *)
Lemma conversion_follows_truthiness_witness :
  Dict.get "success" sample_reply_without_id = Some (JInt 1)
  ∧ truthy (JInt 1) = true
  ∧ convert_to_cdp_response no_repr (JObj sample_reply_without_id)
    = Done (JObj [("id", JNull); ("result", JObj [("ok", JBool true)])])
  ∧ Dict.get "success" sample_reply_zero_success = Some (JInt 0)
  ∧ truthy (JInt 0) = false
  ∧ convert_to_cdp_response no_repr (JObj sample_reply_zero_success)
    = Done (JObj [("id", JInt 7);
                  ("error", JObj [("code", JInt (-32000));
                                  ("message", JStr "None")])]).
Proof.
  split; [reflexivity|]. split; [reflexivity|].
  split; [exact (proj1 (conversion_follows_truthiness no_repr sample_reply_without_id
                          (JInt 1) eq_refl) eq_refl)|].
  split; [reflexivity|]. split; [reflexivity|].
  exact (proj2 (conversion_follows_truthiness no_repr sample_reply_zero_success
                  (JInt 0) eq_refl) eq_refl).
Defined.
